(** * Simple notes backend: a shallow embedding and its specification

    The development follows the two Python modules of the backend:

    - [Engine] is SQLite on the schema that [ensure_schema] creates: the
      [notes] table with its autoincrement key and timestamp defaults, the
      trigger [notes_set_updated_at], and the statements that the handlers
      execute;
    - [Sqlite3] is Python's [sqlite3] module: a connection with its
      transaction, parameter binding, [commit] and [close], as a state and
      exception monad that also records what reached the storage layer;
    - [Db] embeds [src/api/db.py];
    - [Notes] embeds [src/api/notes.py]: the pydantic models and the five
      request handlers.

    Python [int] is [Z].  Python [str] is a list of code points.  The
    [notes] table, whose [id] column is an INTEGER PRIMARY KEY, is a finite
    map from rowid to the remaining cells.  A timestamp column holds what
    CURRENT_TIMESTAMP wrote, a UTC instant at one-second resolution; it is
    the number of seconds of that instant.

    A handler is a function of the time at which it runs and of the
    database file, one request at a time.  It runs in a process that
    started, so [ensure_schema] has run and [get_connection] opens the
    file; paths are POSIX paths. *)

From Stdlib Require Import ZArith Lia Ascii.
From stdpp Require Import base numbers option list strings gmap fin_maps sorting.

Local Open Scope Z_scope.

(** ** Common data *)

Definition str : Type := list N.
Definition timestamp : Type := Z.

(** Code points of an ASCII literal, to write examples. *)
Definition codepoints (s : string) : str :=
  map Ascii.N_of_ascii (String.list_ascii_of_string s).

(** SQLite stores INTEGER values in at most 8 bytes, signed. *)
Definition INT64_MIN : Z := - 2 ^ 63.
Definition INT64_MAX : Z := 2 ^ 63 - 1.

(** Python exceptions that the two modules raise or let through. *)
Inductive exn : Type :=
  | HTTPException (status_code : Z) (detail : string)
  | sqlite3_Error (msg : string)
  | OverflowError (msg : string)
  | ValidationError (msg : string)
  | RuntimeError (msg : string).

Inductive result (A : Type) : Type :=
  | Ok (a : A)
  | Raise (e : exn).
Arguments Ok {A} a.
Arguments Raise {A} e.

#[global] Instance exn_eq_dec : EqDecision exn.
Proof. solve_decision. Defined.

Definition HTTP_204_NO_CONTENT : Z := 204.
Definition HTTP_404_NOT_FOUND : Z := 404.
Definition HTTP_422_UNPROCESSABLE_ENTITY : Z := 422.
Definition HTTP_500_INTERNAL_SERVER_ERROR : Z := 500.

(** ** The SQLite engine on the [notes] schema *)

Module Engine.

(** The non-key columns of a row of [notes]. *)
Record cells : Type := Cells {
  title : str;
  content : str;
  created_at : timestamp;
  updated_at : timestamp
}.

(** The database file: the table and the [sqlite_sequence] counter that
    AUTOINCREMENT keeps for it. *)
Record database : Type := Database {
  notes : gmap Z cells;
  seq : Z
}.

(** A result row of [SELECT id, title, content, created_at, updated_at],
    as [_dict_factory] shapes it. *)
Record row : Type := Row {
  r_id : Z;
  r_title : str;
  r_content : str;
  r_created_at : timestamp;
  r_updated_at : timestamp
}.

Definition row_of (k : Z) (c : cells) : row :=
  Row k (title c) (content c) (created_at c) (updated_at c).

(** Largest rowid in the table, if any. *)
Definition last_rowid (t : gmap Z cells) : option Z :=
  foldr (λ k acc, Some (from_option (Z.max k) k acc)) None (map_to_list t).*1.

(** AUTOINCREMENT: one more than the largest rowid that the table holds
    or ever held; SQLITE_FULL once the largest possible rowid was used. *)
Definition new_rowid (db : database) : option Z :=
  let v := match last_rowid (notes db) with
           | None => Some 1
           | Some m => if decide (INT64_MAX ≤ m) then None else Some (m + 1)
           end in
  match v with
  | None => None
  | Some v =>
      if decide (INT64_MAX ≤ seq db) then None
      else Some (Z.max v (seq db + 1))
  end.

(** [INSERT INTO notes (title, content) VALUES (?, ?)] at time [now]:
    both timestamp columns take their default, CURRENT_TIMESTAMP, which
    has one value within a statement.  Returns the new database and
    [lastrowid]. *)
Definition insert (now : timestamp) (t c : str) (db : database)
  : option (database * Z) :=
  match new_rowid db with
  | None => None
  | Some k => Some (Database (<[k := Cells t c now now]> (notes db)) k, k)
  end.

(** [SELECT id, title, content, created_at, updated_at FROM notes
    WHERE id = ?], then [fetchone]. *)
Definition select_by_id (k : Z) (db : database) : option row :=
  row_of k <$> notes db !! k.

(** [SELECT id FROM notes WHERE id = ?], then [fetchone]. *)
Definition select_id (k : Z) (db : database) : option Z :=
  (λ _, k) <$> notes db !! k.

(** The trigger [notes_set_updated_at]: after the update of a row,
    [UPDATE notes SET updated_at = CURRENT_TIMESTAMP WHERE id = NEW.id].
    Recursive triggers are off, so it runs once for the row. *)
Definition notes_set_updated_at (now : timestamp) (c : cells) : cells :=
  Cells (title c) (content c) (created_at c) now.

(** [UPDATE notes SET ... WHERE id = ?]: [set] assigns the listed columns
    of the matching row, whatever their old values, and the trigger then
    fires for it.  Returns the new database and [rowcount]. *)
Definition update (now : timestamp) (set : cells → cells) (k : Z)
    (db : database) : database * Z :=
  match notes db !! k with
  | None => (db, 0)
  | Some c =>
      (Database (<[k := notes_set_updated_at now (set c)]> (notes db)) (seq db), 1)
  end.

Definition set_title (t : str) (c : cells) : cells :=
  Cells t (content c) (created_at c) (updated_at c).
Definition set_content (x : str) (c : cells) : cells :=
  Cells (title c) x (created_at c) (updated_at c).

(** [DELETE FROM notes WHERE id = ?].  Returns the new database and
    [rowcount]; the counter of AUTOINCREMENT stays. *)
Definition delete (k : Z) (db : database) : database * Z :=
  match notes db !! k with
  | None => (db, 0)
  | Some _ => (Database (base.delete k (notes db)) (seq db), 1)
  end.

(** [datetime(x)] of a value that CURRENT_TIMESTAMP wrote is that value. *)
Definition datetime (t : timestamp) : timestamp := t.

(** [ORDER BY datetime(updated_at) DESC, id DESC]: [a] may come before
    [b]. *)
Definition order_by (a b : row) : Prop :=
  datetime (r_updated_at b) < datetime (r_updated_at a)
  ∨ (datetime (r_updated_at a) = datetime (r_updated_at b) ∧ r_id b ≤ r_id a).

#[global] Instance order_by_dec a b : Decision (order_by a b).
Proof. unfold order_by. apply _. Defined.

(** [LIMIT n]: a negative [n] is no limit.  [OFFSET n]: a negative [n]
    is no offset. *)
Definition sql_limit {A} (n : Z) (l : list A) : list A :=
  if decide (n < 0) then l else take (Z.to_nat n) l.
Definition sql_offset {A} (n : Z) (l : list A) : list A :=
  drop (Z.to_nat n) l.

(** [SELECT id, title, content, created_at, updated_at FROM notes
    ORDER BY datetime(updated_at) DESC, id DESC LIMIT ? OFFSET ?], then
    [fetchall]. *)
Definition select_page (limit offset : Z) (db : database) : list row :=
  sql_limit limit
    (sql_offset offset
       (merge_sort order_by (uncurry row_of <$> map_to_list (notes db)))).

End Engine.

(** ** The [sqlite3] module: a connection, its statements and its errors *)

Module Sqlite3.
Import Engine.

(** The statements of the backend, with their bound parameters. *)
Inductive statement : Type :=
  | INSERT (title content : str)
  | SELECT_ROW (id : Z)
  | SELECT_ID (id : Z)
  | SELECT_PAGE (limit offset : Z)
  | UPDATE_TITLE_CONTENT (title content : str) (id : Z)
  | UPDATE_TITLE (title : str) (id : Z)
  | UPDATE_CONTENT (content : option str) (id : Z)
  | DELETE (id : Z).

(** What reaches the storage layer, in order.  [Connect] is
    [get_connection()]: [sqlite3.connect] and the foreign-keys PRAGMA. *)
Inductive event : Type :=
  | Connect
  | Execute (sql : statement)
  | Commit
  | Close.

(** An open connection: the file as committed, the file as this
    connection sees it inside its transaction, the value that
    CURRENT_TIMESTAMP has while it is open, and the events so far. *)
Record connection : Type := Connection {
  disk : database;
  txn : database;
  clock : timestamp;
  log : list event
}.

(** Code that runs on a connection and returns or raises. *)
Definition M (A : Type) : Type := connection → result A * connection.

#[global] Instance M_ret : MRet M := λ A a conn, (Ok a, conn).
#[global] Instance M_bind : MBind M := λ A B f m conn,
  match m conn with
  | (Ok a, conn') => f a conn'
  | (Raise e, conn') => (Raise e, conn')
  end.

Definition raise {A} (e : exn) : M A := λ conn, (Raise e, conn).

(** A Python [int] bound to a [?]: one outside the signed 64-bit range
    raises [OverflowError], which is not an [sqlite3.Error]. *)
Definition bind_int (n : Z) : M Z :=
  if decide (INT64_MIN ≤ n ≤ INT64_MAX) then mret n
  else raise (OverflowError "Python int too large to convert to SQLite INTEGER").

Definition logged (sql : statement) (conn : connection) : list event :=
  log conn ++ [Execute sql].

(** A statement that reads: the rows it fetches. *)
Definition run_select {A} (sql : statement) (fetch : database → A) : M A :=
  λ conn, (Ok (fetch (txn conn)),
           Connection (disk conn) (txn conn) (clock conn) (logged sql conn)).

(** An UPDATE or DELETE: the transaction sees its effect; [rowcount]. *)
Definition run_write (sql : statement) (write : database → database * Z) : M Z :=
  λ conn,
    let '(db, rowcount) := write (txn conn) in
    (Ok rowcount, Connection (disk conn) db (clock conn) (logged sql conn)).

(** A statement that the engine refuses. *)
Definition run_error {A} (sql : statement) (msg : string) : M A :=
  λ conn, (Raise (sqlite3_Error msg),
           Connection (disk conn) (txn conn) (clock conn) (logged sql conn)).

Definition now : M timestamp := λ conn, (Ok (clock conn), conn).

(** [cur.execute("INSERT ...", (title, content))], then [cur.lastrowid]. *)
Definition execute_insert (t c : str) : M Z := λ conn,
  match insert (clock conn) t c (txn conn) with
  | None => run_error (INSERT t c) "database or disk is full" conn
  | Some (db, k) =>
      (Ok k, Connection (disk conn) db (clock conn) (logged (INSERT t c) conn))
  end.

(** [cur.execute("SELECT id, title, ... WHERE id = ?", (k,))], then
    [cur.fetchone()]. *)
Definition execute_select_row (k : Z) : M (option row) :=
  k ← bind_int k;
  run_select (SELECT_ROW k) (select_by_id k).

(** [cur.execute("SELECT id FROM notes WHERE id = ?", (k,))], then
    [cur.fetchone()]. *)
Definition execute_select_id (k : Z) : M (option Z) :=
  k ← bind_int k;
  run_select (SELECT_ID k) (select_id k).

(** [cur.execute("SELECT ... LIMIT ? OFFSET ?", (limit, offset))], then
    [cur.fetchall()]. *)
Definition execute_select_page (limit offset : Z) : M (list row) :=
  limit ← bind_int limit;
  offset ← bind_int offset;
  run_select (SELECT_PAGE limit offset) (select_page limit offset).

Definition run_update (sql : statement) (set : cells → cells) (k : Z) : M Z :=
  t ← now;
  run_write sql (update t set k).

(** [cur.execute("UPDATE notes SET title = ?, content = ? WHERE id = ?",
    (t, c, k))]. *)
Definition execute_update_title_content (t c : str) (k : Z) : M Z :=
  k ← bind_int k;
  run_update (UPDATE_TITLE_CONTENT t c k) (set_content c ∘ set_title t) k.

(** [cur.execute("UPDATE notes SET title = ? WHERE id = ?", (t, k))]. *)
Definition execute_update_title (t : str) (k : Z) : M Z :=
  k ← bind_int k;
  run_update (UPDATE_TITLE t k) (set_title t) k.

(** [cur.execute("UPDATE notes SET content = ? WHERE id = ?", (c, k))];
    [None] binds NULL, which the NOT NULL column refuses for a row that
    matches. *)
Definition execute_update_content (c : option str) (k : Z) : M Z :=
  k ← bind_int k;
  match c with
  | Some x => run_update (UPDATE_CONTENT c k) (set_content x) k
  | None =>
      λ conn,
        match notes (txn conn) !! k with
        | Some _ =>
            run_error (UPDATE_CONTENT c k)
              "NOT NULL constraint failed: notes.content" conn
        | None => run_write (UPDATE_CONTENT c k) (λ db, (db, 0)) conn
        end
  end.

(** [cur.execute("DELETE FROM notes WHERE id = ?", (k,))], then
    [cur.rowcount]. *)
Definition execute_delete (k : Z) : M Z :=
  k ← bind_int k;
  run_write (DELETE k) (delete k).

(** [conn.commit()]. *)
Definition commit : M unit := λ conn,
  (Ok tt, Connection (txn conn) (txn conn) (clock conn) (log conn ++ [Commit])).

(** [sqlite3.connect(path)] on the file [db] while CURRENT_TIMESTAMP is
    [now]. *)
Definition connect (now : timestamp) (db : database) : connection :=
  Connection db db now [Connect].

(** [conn.close()]: what was not committed is rolled back. *)
Definition close (conn : connection) : database * list event :=
  (disk conn, log conn ++ [Close]).

End Sqlite3.

(** ** [src/api/db.py] *)

Module Db.
Import Engine.

(** What the process sees of its operating system: the environment
    variables, the working directory, and which paths exist. *)
Record os : Type := Os {
  environ : gmap string string;
  getcwd : string;
  path_exists : string → bool
}.

(** *** [posixpath]: [join] of two paths, [normpath], [abspath] *)

(** [p.startswith(prefix)]. *)
Definition startswith (p prefix : string) : bool := String.prefix prefix p.

(** [p.endswith('/')]. *)
Fixpoint endswith_sep (p : string) : bool :=
  match p with
  | EmptyString => false
  | String c EmptyString => bool_decide (c = "/"%char)
  | String _ p' => endswith_sep p'
  end.

Definition join (a b : string) : string :=
  if startswith b "/" then b
  else if bool_decide (a = "") || endswith_sep a then (a ++ b)%string
  else (a ++ "/" ++ b)%string.

(** [path.split('/')]. *)
Fixpoint split_sep (p : string) : list string :=
  match p with
  | EmptyString => [EmptyString]
  | String c p' =>
      if bool_decide (c = "/"%char) then EmptyString :: split_sep p'
      else match split_sep p' with
           | x :: xs => String c x :: xs
           | [] => [String c EmptyString]
           end
  end.

(** One or two initial slashes are kept, three or more are one. *)
Definition initial_slashes (p : string) : nat :=
  if startswith p "/" && startswith p "//" && negb (startswith p "///")
  then 2
  else if startswith p "/" then 1 else 0.

(** The loop of [normpath] over the components; [new_comps] is kept with
    its last element first. *)
Definition normpath_step (slashes : nat) (new_comps : list string)
    (comp : string) : list string :=
  if bool_decide (comp = "" ∨ comp = ".") then new_comps
  else if bool_decide (comp ≠ ".."
                       ∨ (slashes = 0%nat ∧ new_comps = [])
                       ∨ head new_comps = Some "..")
  then comp :: new_comps
  else tail new_comps.

Definition normpath (path : string) : string :=
  if bool_decide (path = "") then "."
  else
    let slashes := initial_slashes path in
    let comps := reverse (foldl (normpath_step slashes) [] (split_sep path)) in
    let path := (String.concat "" (replicate slashes "/") ++
                 String.concat "/" comps)%string in
    if bool_decide (path = "") then "." else path.

Definition abspath (cwd path : string) : string :=
  normpath (if startswith path "/" then path else join cwd path).

(** *** [get_sqlite_db_path] *)

Definition get_sqlite_db_path (sys : os) : result string :=
  let db_path := environ sys !! "SQLITE_DB" in
  match db_path with
  | None | Some "" =>
      Raise (RuntimeError
        ("Missing required environment variable SQLITE_DB. " ++
         "It must point to the SQLite database file produced by notes_database."))
  | Some db_path =>
      let db_path := abspath (getcwd sys) db_path in
      if negb (path_exists sys db_path) then
        Raise (RuntimeError
          ("SQLITE_DB points to '" ++ db_path ++
           "', but that file does not exist."))
      else Ok db_path
  end.

(** *** [get_connection]

    The startup hook has run [ensure_schema], hence [get_connection], before
    a request is served: a handler's [get_connection()] is embedded from
    the point where the configured file, which holds [db], has been opened
    at time [now]. *)
Definition get_connection (now : timestamp) (db : database)
  : Sqlite3.connection :=
  Sqlite3.connect now db.

(** *** [ensure_schema]

    What [CREATE TABLE IF NOT EXISTS] and [CREATE TRIGGER IF NOT EXISTS]
    leave of a database file that SQLite opens and writes, and that has the
    table ([Some db]) or has not: an empty table with its counter at
    zero, where there was none. *)
Definition ensure_schema (file : option database) : database :=
  match file with
  | Some db => db
  | None => Database ∅ 0
  end.

End Db.

(** ** [src/api/notes.py] *)

Module Notes.
Import Engine Sqlite3.

(** Python's [len] of a [str]. *)
Definition len (s : str) : Z := Z.of_nat (length s).

(** *** The pydantic models *)

(** A [str] as pydantic's [str] type accepts it.  A Python [str] holds code
    points up to U+10FFFF, the surrogates U+D800 to U+DFFF among them (the
    JSON body ["\ud800"] decodes to one).  pydantic reads the string as
    UTF-8, which no surrogate has, and rejects a string that holds one
    ([string_unicode]). *)
Definition scalar_value (c : N) : Prop :=
  (c < 0xD800 ∨ 0xDFFF < c ∧ c ≤ 0x10FFFF)%N.
#[global] Instance scalar_value_dec c : Decision (scalar_value c).
Proof. unfold scalar_value. apply _. Defined.

Definition valid_unicode (s : str) : Prop := Forall scalar_value s.
#[global] Instance valid_unicode_dec s : Decision (valid_unicode s).
Proof. unfold valid_unicode. apply _. Defined.

(** [NoteBase]: the two constrained fields. *)
Module NoteBase.
Definition title_ok (t : str) : Prop := 1 ≤ len t ∧ len t ≤ 200.
Definition content_ok (c : str) : Prop := 1 ≤ len c ∧ len c ≤ 50000.
#[global] Instance title_ok_dec t : Decision (title_ok t).
Proof. unfold title_ok. apply _. Defined.
#[global] Instance content_ok_dec c : Decision (content_ok c).
Proof. unfold content_ok. apply _. Defined.
End NoteBase.

Module NoteCreate.
Record t : Type := Make { title : str; content : str }.

(** Validation of a request body with these two fields, each a [str]
    within its bounds; FastAPI answers a body that fails with status 422
    and does not call the handler. *)
Definition model_validate (title content : str) : result t :=
  if decide ((valid_unicode title ∧ NoteBase.title_ok title)
             ∧ (valid_unicode content ∧ NoteBase.content_ok content))
  then Ok (Make title content)
  else Raise (HTTPException HTTP_422_UNPROCESSABLE_ENTITY "validation error").
End NoteCreate.

Module NoteUpdate.
Record t : Type := Make { title : option str; content : option str }.

Definition field_ok (ok : str → Prop) (x : option str) : Prop :=
  match x with
  | None => True
  | Some s => ok s
  end.
#[global] Instance field_ok_dec ok `{∀ s, Decision (ok s)} x :
  Decision (field_ok ok x).
Proof. destruct x; simpl; apply _. Defined.

(** Validation of a request body in which each field may be absent or
    null, and is otherwise a [str] within its bounds; a body that fails is
    answered with status 422. *)
Definition model_validate (title content : option str) : result t :=
  if decide (field_ok (λ s, valid_unicode s ∧ NoteBase.title_ok s) title
             ∧ field_ok (λ s, valid_unicode s ∧ NoteBase.content_ok s) content)
  then Ok (Make title content)
  else Raise (HTTPException HTTP_422_UNPROCESSABLE_ENTITY "validation error").
End NoteUpdate.

Module NoteOut.
Record t : Type := Make {
  id : Z;
  title : str;
  content : str;
  created_at : timestamp;
  updated_at : timestamp
}.

(** [NoteOut.model_validate(row)]: the constraints of [NoteBase] hold
    of what is read back, too; [None] is no mapping at all.  A TEXT value
    that [sqlite3] returns was decoded from UTF-8 and holds no surrogate:
    of the stored strings only the lengths are in question. *)
Definition model_validate (row : option row) : result t :=
  match row with
  | None => Raise (ValidationError "Input should be a valid dictionary")
  | Some r =>
      if decide (NoteBase.title_ok (r_title r)
                 ∧ NoteBase.content_ok (r_content r))
      then Ok (Make (r_id r) (r_title r) (r_content r)
                    (r_created_at r) (r_updated_at r))
      else Raise (ValidationError "string length out of bounds")
  end.
End NoteOut.

Record Response : Type := { status_code : Z }.

Definition _parse_note_row (row : option row) : M NoteOut.t :=
  λ conn, (NoteOut.model_validate row, conn).

(** *** Handlers *)

(** What a call of a handler leaves: what it returned or raised, the
    database file, and what reached the storage layer. *)
Record outcome (A : Type) : Type := Outcome {
  returned : result A;
  stored : database;
  trace : list event
}.
Arguments Outcome {A} _ _ _.
Arguments returned {A} _.
Arguments stored {A} _.
Arguments trace {A} _.

(** A handler runs at a time [now] on a database file. *)
Definition handler (A : Type) : Type := timestamp → database → outcome A.

(** [raise HTTPException(...)] before any connection is made. *)
Definition reject {A} (status : Z) (detail : string) : handler A :=
  λ _ db, Outcome (Raise (HTTPException status detail)) db [].

(** The frame of every handler:
    [try: conn = get_connection(); ...]
    [except sqlite3.Error as e: raise HTTPException(500, f"... {e}")]
    [finally: conn.close()].  An [HTTPException] and any other exception
    pass through. *)
Definition try_connection {A} (while : string) (body : M A) : handler A :=
  λ now db,
    let '(r, conn) := body (Db.get_connection now db) in
    let r :=
      match r with
      | Raise (sqlite3_Error e) =>
          Raise (HTTPException HTTP_500_INTERNAL_SERVER_ERROR
                   ("Database error while " ++ while ++ ": " ++ e))
      | _ => r
      end in
    let '(db, events) := close conn in
    Outcome r db events.

Definition create_note (payload : NoteCreate.t) : handler NoteOut.t :=
  try_connection "creating note" (
    note_id ← execute_insert (NoteCreate.title payload) (NoteCreate.content payload);
    _ ← commit;
    row ← execute_select_row note_id;
    _parse_note_row row).

Definition list_notes (limit offset : Z) : handler (list NoteOut.t) :=
  if decide (limit < 1 ∨ limit > 500) then
    reject HTTP_422_UNPROCESSABLE_ENTITY "limit must be between 1 and 500"
  else if decide (offset < 0) then
    reject HTTP_422_UNPROCESSABLE_ENTITY "offset must be >= 0"
  else
    try_connection "listing notes" (
      rows ← execute_select_page limit offset;
      mapM (λ r, _parse_note_row (Some r)) rows).

(** A call that may leave out either argument: [limit: int = 200],
    [offset: int = 0]. *)
Definition list_notes_call (limit offset : option Z)
  : handler (list NoteOut.t) :=
  list_notes (default 200 limit) (default 0 offset).

Definition get_note (note_id : Z) : handler NoteOut.t :=
  if decide (note_id ≤ 0) then
    reject HTTP_422_UNPROCESSABLE_ENTITY "note_id must be a positive integer"
  else
    try_connection "fetching note" (
      row ← execute_select_row note_id;
      match row with
      | None => raise (HTTPException HTTP_404_NOT_FOUND "Not found")
      | Some _ => _parse_note_row row
      end).

Definition update_note (note_id : Z) (payload : NoteUpdate.t)
  : handler NoteOut.t :=
  if decide (note_id ≤ 0) then
    reject HTTP_422_UNPROCESSABLE_ENTITY "note_id must be a positive integer"
  else if decide (NoteUpdate.title payload = None
                  ∧ NoteUpdate.content payload = None) then
    reject HTTP_422_UNPROCESSABLE_ENTITY
      "At least one of title/content must be provided"
  else
    try_connection "updating note" (
      found ← execute_select_id note_id;
      match found with
      | None => raise (HTTPException HTTP_404_NOT_FOUND "Not found")
      | Some _ =>
          _ ← match NoteUpdate.title payload, NoteUpdate.content payload with
              | Some t, Some c => execute_update_title_content t c note_id
              | Some t, None => execute_update_title t note_id
              | None, c => execute_update_content c note_id
              end;
          _ ← commit;
          row ← execute_select_row note_id;
          _parse_note_row row
      end).

Definition delete_note (note_id : Z) : handler Response :=
  if decide (note_id ≤ 0) then
    reject HTTP_422_UNPROCESSABLE_ENTITY "note_id must be a positive integer"
  else
    try_connection "deleting note" (
      rowcount ← execute_delete note_id;
      _ ← commit;
      if decide (rowcount = 0) then
        raise (HTTPException HTTP_404_NOT_FOUND "Not found")
      else mret {| status_code := HTTP_204_NO_CONTENT |}).

End Notes.

(** ** [src/api/db.py]: the row factory *)

Module Rows.
Section dict_factory.
Context {V : Type}.

(** The loop of [_dict_factory] from index [idx] on:
    [for idx, col in enumerate(cursor.description): d[col[0]] = row[idx]].
    [description] lists the column names, [col[0]] of each entry; [None]
    is the [IndexError] of a row with fewer values than columns. *)
Fixpoint _dict_factory_loop (idx : nat) (description : list string)
    (row : list V) (d : gmap string V) : option (gmap string V) :=
  match description with
  | [] => Some d
  | col :: description =>
      match row !! idx with
      | None => None
      | Some v => _dict_factory_loop (S idx) description row (<[col := v]> d)
      end
  end.

Definition _dict_factory (description : list string) (row : list V)
  : option (gmap string V) :=
  _dict_factory_loop 0 description row ∅.

End dict_factory.
End Rows.

(** * The vocabulary of the properties *)

Import Engine Sqlite3 Notes.

(** What AUTOINCREMENT maintains: the counter is a valid rowid or zero,
    and no row of the table has a rowid above it. *)
Definition autoincrement_ok (db : database) : Prop :=
  0 ≤ seq db ≤ INT64_MAX ∧ map_Forall (λ k _, k ≤ seq db) (notes db).

(** An integer that SQLite can hold. *)
Definition in_int64 (n : Z) : Prop := INT64_MIN ≤ n ≤ INT64_MAX.

(** A row within the bounds of [NoteBase]. *)
Definition cells_ok (c : cells) : Prop :=
  NoteBase.title_ok (title c) ∧ NoteBase.content_ok (content c).

#[local] Instance cells_ok_dec c : Decision (cells_ok c).
Proof. unfold cells_ok. apply _. Defined.

(** What the store holds passes the bounds of [NoteBase]. *)
Definition rows_ok (db : database) : Prop :=
  map_Forall (λ _ c, cells_ok c) (notes db).

#[local] Instance rows_ok_dec db : Decision (rows_ok db).
Proof. unfold rows_ok. apply _. Defined.

(** A fetched row within the bounds of [NoteBase]. *)
Definition row_ok (r : row) : Prop :=
  NoteBase.title_ok (r_title r) ∧ NoteBase.content_ok (r_content r).

(** The record that [_parse_note_row] makes of a row that passes: of the
    row with id [k] and cells [c], and of a fetched row. *)
Definition note_of (k : Z) (c : cells) : NoteOut.t :=
  NoteOut.Make k (title c) (content c) (created_at c) (updated_at c).

Definition note_of_row (r : row) : NoteOut.t :=
  NoteOut.Make (r_id r) (r_title r) (r_content r)
    (r_created_at r) (r_updated_at r).

(** The request supplies a title, a content or both. *)
Definition supplies_a_field (payload : NoteUpdate.t) : Prop :=
  ¬ (NoteUpdate.title payload = None ∧ NoteUpdate.content payload = None).

(** The UPDATE that [update_note] sends for a request, and the row that
    it and the trigger leave at time [now]. *)
Definition update_statement (payload : NoteUpdate.t) (k : Z) : statement :=
  match NoteUpdate.title payload, NoteUpdate.content payload with
  | Some t, Some c => UPDATE_TITLE_CONTENT t c k
  | Some t, None => UPDATE_TITLE t k
  | None, c => UPDATE_CONTENT c k
  end.

Definition updated_cells (payload : NoteUpdate.t) (now : timestamp)
    (c : cells) : cells :=
  Cells (default (title c) (NoteUpdate.title payload))
        (default (content c) (NoteUpdate.content payload))
        (created_at c) now.


(** The statements that only read. *)
Definition reads (e : event) : Prop :=
  match e with
  | Execute (SELECT_ROW _ | SELECT_ID _ | SELECT_PAGE _ _) => True
  | Execute _ | Commit => False
  | Connect | Close => True
  end.

(** The configuration carries no value: SQLITE_DB is unset, or set to the
    empty string. *)
Definition value_absent (sys : Db.os) : Prop :=
  Db.environ sys !! "SQLITE_DB" = None ∨ Db.environ sys !! "SQLITE_DB" = Some "".

(** Two notes created within the same second. *)
Definition two_notes : database :=
  stored (create_note (NoteCreate.Make [65%N] [66%N]) 5
    (stored (create_note (NoteCreate.Make [67%N] [68%N]) 5
       (Db.ensure_schema None)))).

(** The invariant of the data model at time [now]: the autoincrement
    counter bounds the ids; every id is positive; every title and content
    is within the bounds of [NoteBase]; every [created_at] is at most the
    [updated_at], which is at most [now]. *)
Definition store_inv (now : timestamp) (db : database) : Prop :=
  autoincrement_ok db
  ∧ map_Forall (λ k c, 0 < k ∧ cells_ok c
                       ∧ created_at c ≤ updated_at c ∧ updated_at c ≤ now)
      (notes db).

(** A request body within the bounds of [NoteUpdate], as every body that
    passed its validation is. *)
Definition update_ok (payload : NoteUpdate.t) : Prop :=
  NoteUpdate.field_ok NoteBase.title_ok (NoteUpdate.title payload)
  ∧ NoteUpdate.field_ok NoteBase.content_ok (NoteUpdate.content payload).

(** A request as its handler receives it. *)
Inductive request : Type :=
  | POST_notes (payload : NoteCreate.t)
  | GET_notes (limit offset : Z)
  | GET_note (note_id : Z)
  | PUT_note (note_id : Z) (payload : NoteUpdate.t)
  | DELETE_note (note_id : Z).

(** Its body is within the bounds of its model, as every body that passed
    the validation of the model is. *)
Definition validated (r : request) : Prop :=
  match r with
  | POST_notes payload =>
      NoteBase.title_ok (NoteCreate.title payload)
      ∧ NoteBase.content_ok (NoteCreate.content payload)
  | PUT_note _ payload => update_ok payload
  | GET_notes _ _ | GET_note _ | DELETE_note _ => True
  end.

(** The store that serving it at time [now] leaves. *)
Definition serve (r : request) (now : timestamp) (db : database) : database :=
  match r with
  | POST_notes payload => stored (create_note payload now db)
  | GET_notes limit offset => stored (list_notes limit offset now db)
  | GET_note note_id => stored (get_note note_id now db)
  | PUT_note note_id payload => stored (update_note note_id payload now db)
  | DELETE_note note_id => stored (delete_note note_id now db)
  end.

(** The stores that the handlers build from an empty file, one request
    after the other, while the clock does not go back. *)
Inductive reachable : timestamp → database → Prop :=
  | reachable_empty (now : timestamp) :
      reachable now (Db.ensure_schema None)
  | reachable_serve (now later : timestamp) (db : database) (r : request) :
      reachable now db → now ≤ later → validated r →
      reachable later (serve r later db).

(** What serving a request returned, as far as it matters whether it
    raised. *)
Definition raised (r : request) (now : timestamp) (db : database) : Prop :=
  match r with
  | POST_notes payload => ∃ e, returned (create_note payload now db) = Raise e
  | GET_notes limit offset =>
      ∃ e, returned (list_notes limit offset now db) = Raise e
  | GET_note note_id => ∃ e, returned (get_note note_id now db) = Raise e
  | PUT_note note_id payload =>
      ∃ e, returned (update_note note_id payload now db) = Raise e
  | DELETE_note note_id => ∃ e, returned (delete_note note_id now db) = Raise e
  end.

(** What reached the storage layer while a request was served. *)
Definition events (r : request) (now : timestamp) (db : database)
  : list event :=
  match r with
  | POST_notes payload => trace (create_note payload now db)
  | GET_notes limit offset => trace (list_notes limit offset now db)
  | GET_note note_id => trace (get_note note_id now db)
  | PUT_note note_id payload => trace (update_note note_id payload now db)
  | DELETE_note note_id => trace (delete_note note_id now db)
  end.

(** An event between the opening and the closing of a connection. *)
Definition inside (e : event) : Prop :=
  match e with
  | Execute _ | Commit => True
  | Connect | Close => False
  end.

(** * Properties *)

(** Arithmetic with the two bounds of a 64-bit integer. *)
Ltac int64 := unfold INT64_MAX, INT64_MIN in *; lia.

(** ** The engine *)

Lemma foldr_max_bound (l : list Z) (k : Z) :
  k ∈ l →
  ∃ m, foldr (λ k acc, Some (from_option (Z.max k) k acc)) None l = Some m
       ∧ k ≤ m.
Proof.
  induction l as [|x l IH]; intros Hin.
  - by apply elem_of_nil in Hin.
  - apply elem_of_cons in Hin as [->|Hin]; simpl.
    + destruct (foldr _ None l); simpl; eexists; split; eauto; lia.
    + destruct (IH Hin) as (m & -> & ?). simpl. eexists; split; eauto. lia.
Qed.

Lemma last_rowid_bound (t : gmap Z cells) (k : Z) (c : cells) :
  t !! k = Some c → ∃ m, last_rowid t = Some m ∧ k ≤ m.
Proof.
  intros Hk. apply foldr_max_bound.
  apply list_elem_of_fmap. exists (k, c). split; [done|].
  by apply elem_of_map_to_list.
Qed.

Lemma foldr_max_elem (l : list Z) (m : Z) :
  foldr (λ k acc, Some (from_option (Z.max k) k acc)) None l = Some m →
  m ∈ l.
Proof.
  revert m. induction l as [|x l IH]; intros m; simpl; [done|].
  destruct (foldr _ None l) as [m'|] eqn:E; simpl; intros [= <-].
  - destruct (Z.max_spec x m') as [[_ ->]|[_ ->]].
    + right. by apply IH.
    + left.
  - left.
Qed.

Lemma last_rowid_elem (t : gmap Z cells) (m : Z) :
  last_rowid t = Some m → is_Some (t !! m).
Proof.
  intros Hm. apply foldr_max_elem in Hm.
  apply list_elem_of_fmap in Hm as ([k c] & -> & Hin).
  apply elem_of_map_to_list in Hin. eauto.
Qed.

(** The rowid that AUTOINCREMENT picks is unused, above the counter and
    within range. *)
Lemma new_rowid_fresh (db : database) (k : Z) :
  new_rowid db = Some k →
  notes db !! k = None ∧ seq db < k ∧ k ≤ INT64_MAX.
Proof.
  unfold new_rowid. intros Hk.
  destruct (last_rowid (notes db)) as [m|] eqn:Hm.
  - repeat case_decide; simplify_eq.
    split; [|lia].
    destruct (notes db !! _) as [c|] eqn:Hc; [|done].
    destruct (last_rowid_bound _ _ _ Hc) as (m' & Hm' & ?).
    rewrite Hm in Hm'. simplify_eq. lia.
  - case_decide; simplify_eq. split; [|int64].
    destruct (notes db !! _) as [c|] eqn:Hc; [|done].
    destruct (last_rowid_bound _ _ _ Hc) as (m' & Hm' & ?). congruence.
Qed.

(** It picks one as long as the largest rowid was not used. *)
Lemma new_rowid_room (db : database) :
  autoincrement_ok db → seq db < INT64_MAX → is_Some (new_rowid db).
Proof.
  intros [Hseq Hkeys] Hroom. unfold new_rowid.
  destruct (last_rowid (notes db)) as [m|] eqn:Hm.
  - destruct (last_rowid_elem _ _ Hm) as [c Hc].
    apply Hkeys in Hc. simpl in Hc.
    repeat case_decide; try lia; eauto.
  - case_decide; try lia; eauto.
Qed.

(** ** The handlers, case by case *)

Section handler_facts.
Context (db : database) (now : timestamp).

Lemma model_validate_row (k : Z) (c : cells) :
  cells_ok c → NoteOut.model_validate (Some (row_of k c)) = Ok (note_of k c).
Proof. intros Hc. unfold NoteOut.model_validate. simpl. by rewrite decide_True. Qed.

Lemma model_validate_row_inv (r : row) (n : NoteOut.t) :
  NoteOut.model_validate (Some r) = Ok n →
  n = NoteOut.Make (r_id r) (r_title r) (r_content r)
        (r_created_at r) (r_updated_at r)
  ∧ NoteBase.title_ok (r_title r) ∧ NoteBase.content_ok (r_content r).
Proof.
  unfold NoteOut.model_validate. case_decide; [|done].
  intros [= <-]. tauto.
Qed.

Lemma bind_int_ok (n : Z) (conn : connection) :
  in_int64 n → bind_int n conn = (Ok n, conn).
Proof. intros Hn. unfold bind_int. by rewrite decide_True. Qed.

Lemma bind_int_overflow (n : Z) (conn : connection) :
  ¬ in_int64 n →
  bind_int n conn =
    (Raise (OverflowError "Python int too large to convert to SQLite INTEGER"),
     conn).
Proof. intros Hn. unfold bind_int. by rewrite decide_False. Qed.

(** [create_note] when AUTOINCREMENT picks [k]. *)
Lemma create_note_inserted (payload : NoteCreate.t) (k : Z) :
  0 ≤ seq db →
  new_rowid db = Some k →
  let c := Cells (NoteCreate.title payload) (NoteCreate.content payload) now now in
  create_note payload now db =
    Outcome (NoteOut.model_validate (Some (row_of k c)))
      (Database (<[k := c]> (notes db)) k)
      [Connect;
       Execute (INSERT (NoteCreate.title payload) (NoteCreate.content payload));
       Commit; Execute (SELECT_ROW k); Close].
Proof.
  intros Hseq Hk c.
  destruct (new_rowid_fresh _ _ Hk) as (_ & ? & ?).
  unfold create_note, try_connection, mbind, M_bind, execute_insert, insert.
  simpl. rewrite Hk. simpl.
  unfold execute_select_row, mbind, M_bind.
  rewrite bind_int_ok by (unfold in_int64; int64).
  unfold run_select, select_by_id. simpl.
  rewrite lookup_insert_eq. simpl.
  unfold _parse_note_row, NoteOut.model_validate. simpl.
  by case_decide.
Qed.

Lemma create_note_ok (payload : NoteCreate.t) (k : Z) :
  0 ≤ seq db →
  new_rowid db = Some k →
  NoteBase.title_ok (NoteCreate.title payload) →
  NoteBase.content_ok (NoteCreate.content payload) →
  let c := Cells (NoteCreate.title payload) (NoteCreate.content payload) now now in
  create_note payload now db =
    Outcome (Ok (note_of k c))
      (Database (<[k := c]> (notes db)) k)
      [Connect;
       Execute (INSERT (NoteCreate.title payload) (NoteCreate.content payload));
       Commit; Execute (SELECT_ROW k); Close].
Proof.
  intros Hseq Hk Ht Hc c.
  rewrite (create_note_inserted payload k) by done.
  cbv zeta. fold c. by rewrite (model_validate_row k c).
Qed.

(** [create_note] when the largest rowid was used. *)
Lemma create_note_full (payload : NoteCreate.t) :
  new_rowid db = None →
  create_note payload now db =
    Outcome
      (Raise (HTTPException 500
                "Database error while creating note: database or disk is full"))
      db
      [Connect;
       Execute (INSERT (NoteCreate.title payload) (NoteCreate.content payload));
       Close].
Proof.
  intros Hk.
  unfold create_note, try_connection, mbind, M_bind, execute_insert, insert.
  simpl. by rewrite Hk.
Qed.

(** [get_note] by its three guards. *)
Lemma get_note_nonpositive (k : Z) :
  k ≤ 0 →
  get_note k now db =
    Outcome (Raise (HTTPException 422 "note_id must be a positive integer"))
      db [].
Proof. intros Hk. unfold get_note. by rewrite decide_True. Qed.

Lemma get_note_overflow (k : Z) :
  INT64_MAX < k →
  get_note k now db =
    Outcome
      (Raise (OverflowError "Python int too large to convert to SQLite INTEGER"))
      db [Connect; Close].
Proof.
  intros Hk. unfold get_note. rewrite decide_False by int64.
  unfold try_connection, execute_select_row, mbind, M_bind.
  rewrite bind_int_overflow by (unfold in_int64; int64). done.
Qed.

Lemma get_note_lookup (k : Z) :
  0 < k ≤ INT64_MAX →
  get_note k now db =
    Outcome
      match notes db !! k with
      | None => Raise (HTTPException 404 "Not found")
      | Some c => NoteOut.model_validate (Some (row_of k c))
      end
      db [Connect; Execute (SELECT_ROW k); Close].
Proof.
  intros Hk. unfold get_note. rewrite decide_False by lia.
  unfold try_connection, execute_select_row, mbind, M_bind.
  rewrite bind_int_ok by (unfold in_int64; int64).
  unfold run_select, select_by_id. simpl.
  destruct (notes db !! k) as [c|]; simpl; [|done].
  unfold _parse_note_row, NoteOut.model_validate. simpl.
  by case_decide.
Qed.

Lemma update_note_nonpositive (k : Z)
    (payload : NoteUpdate.t) :
  k ≤ 0 →
  update_note k payload now db =
    Outcome (Raise (HTTPException 422 "note_id must be a positive integer"))
      db [].
Proof. intros Hk. unfold update_note. by rewrite decide_True. Qed.

Lemma update_note_no_field (k : Z)
    (payload : NoteUpdate.t) :
  0 < k → ¬ supplies_a_field payload →
  update_note k payload now db =
    Outcome
      (Raise (HTTPException 422 "At least one of title/content must be provided"))
      db [].
Proof.
  intros Hk Hp. unfold update_note. rewrite decide_False by lia.
  rewrite decide_True; [done|].
  unfold supplies_a_field in Hp. by apply dec_stable.
Qed.

Lemma update_note_overflow (k : Z)
    (payload : NoteUpdate.t) :
  INT64_MAX < k → supplies_a_field payload →
  update_note k payload now db =
    Outcome
      (Raise (OverflowError "Python int too large to convert to SQLite INTEGER"))
      db [Connect; Close].
Proof.
  intros Hk Hp. unfold update_note. rewrite decide_False by int64.
  rewrite decide_False by done.
  unfold try_connection, execute_select_id, mbind, M_bind.
  rewrite bind_int_overflow by (unfold in_int64; int64). done.
Qed.

Lemma update_note_missing (k : Z)
    (payload : NoteUpdate.t) :
  0 < k ≤ INT64_MAX → supplies_a_field payload →
  notes db !! k = None →
  update_note k payload now db =
    Outcome (Raise (HTTPException 404 "Not found")) db
      [Connect; Execute (SELECT_ID k); Close].
Proof.
  intros Hk Hp Hnone. unfold update_note. rewrite decide_False by lia.
  rewrite decide_False by done.
  unfold try_connection, execute_select_id, mbind, M_bind.
  rewrite bind_int_ok by (unfold in_int64; int64).
  unfold run_select, select_id. simpl. by rewrite Hnone.
Qed.

Lemma update_note_found (k : Z)
    (payload : NoteUpdate.t) (c : cells) :
  0 < k ≤ INT64_MAX → supplies_a_field payload →
  notes db !! k = Some c →
  update_note k payload now db =
    Outcome
      (NoteOut.model_validate (Some (row_of k (updated_cells payload now c))))
      (Database (<[k := updated_cells payload now c]> (notes db)) (seq db))
      [Connect; Execute (SELECT_ID k); Execute (update_statement payload k);
       Commit; Execute (SELECT_ROW k); Close].
Proof.
  intros Hk Hp Hc. unfold update_note. rewrite decide_False by lia.
  rewrite decide_False by done.
  assert (in_int64 k) as Hin by (unfold in_int64; int64).
  unfold try_connection, execute_select_id, mbind, M_bind.
  rewrite bind_int_ok by done.
  unfold run_select, select_id. simpl. rewrite Hc. simpl.
  unfold supplies_a_field in Hp. unfold update_statement, updated_cells.
  destruct payload as [[t|] [x|]]; simpl in *; [| | |tauto].
  all: unfold execute_update_title_content, execute_update_title,
         execute_update_content, mbind, M_bind;
       rewrite bind_int_ok by done;
       unfold run_update, mbind, M_bind, Sqlite3.now, run_write, update; simpl;
       rewrite Hc; simpl;
       unfold execute_select_row, mbind, M_bind;
       rewrite bind_int_ok by done;
       unfold run_select, select_by_id; simpl;
       rewrite lookup_insert_eq; simpl;
       unfold _parse_note_row, NoteOut.model_validate; simpl;
       by case_decide.
Qed.

(** [delete_note] by its guards. *)
Lemma delete_note_nonpositive (k : Z) :
  k ≤ 0 →
  delete_note k now db =
    Outcome (Raise (HTTPException 422 "note_id must be a positive integer"))
      db [].
Proof. intros Hk. unfold delete_note. by rewrite decide_True. Qed.

Lemma delete_note_overflow (k : Z) :
  INT64_MAX < k →
  delete_note k now db =
    Outcome
      (Raise (OverflowError "Python int too large to convert to SQLite INTEGER"))
      db [Connect; Close].
Proof.
  intros Hk. unfold delete_note. rewrite decide_False by int64.
  unfold try_connection, execute_delete, mbind, M_bind.
  rewrite bind_int_overflow by (unfold in_int64; int64). done.
Qed.

Lemma delete_note_in_range (k : Z) :
  0 < k ≤ INT64_MAX →
  delete_note k now db =
    let '(db', rowcount) := delete k db in
    Outcome
      (if decide (rowcount = 0) then Raise (HTTPException 404 "Not found")
       else Ok {| status_code := 204 |})
      db'
      [Connect; Execute (DELETE k); Commit; Close].
Proof.
  intros Hk. unfold delete_note. rewrite decide_False by lia.
  unfold try_connection, execute_delete, mbind, M_bind.
  rewrite bind_int_ok by (unfold in_int64; int64).
  unfold run_write. simpl.
  destruct (delete k db) as [db' rowcount]. simpl.
  by case_decide.
Qed.

(** [list_notes]: the page that the engine returns. *)
#[local] Instance order_by_total : Total order_by.
Proof. intros a b. unfold order_by, datetime. lia. Qed.

#[local] Instance order_by_trans : Transitive order_by.
Proof. intros a b c. unfold order_by, datetime. lia. Qed.



Lemma select_page_elem (limit offset : Z) (r : row) :
  r ∈ select_page limit offset db →
  ∃ c, notes db !! r_id r = Some c ∧ r = row_of (r_id r) c.
Proof.
  unfold select_page, sql_limit, sql_offset. intros Hr.
  assert (r ∈ merge_sort order_by (uncurry row_of <$> map_to_list (notes db)))
    as Hin.
  { case_decide.
    - by eapply subseteq_drop.
    - eapply subseteq_drop, subseteq_take, Hr. }
  rewrite merge_sort_Permutation in Hin.
  apply list_elem_of_fmap in Hin as ([k c] & -> & Hkc).
  apply elem_of_map_to_list in Hkc. simpl. eauto.
Qed.

Lemma select_page_ids (limit offset : Z) :
  NoDup (r_id <$> select_page limit offset db).
Proof.
  assert (NoDup (r_id <$> merge_sort order_by
                   (uncurry row_of <$> map_to_list (notes db)))) as Hall.
  { rewrite merge_sort_Permutation, <- list_fmap_compose.
    rewrite (list_fmap_ext _ fst (map_to_list (notes db)))
      by (by intros i [k c] _).
    apply NoDup_fst_map_to_list. }
  unfold select_page, sql_limit, sql_offset.
  refine (sublist_NoDup _ _ Hall _).
  apply fmap_sublist. case_decide.
  - apply sublist_drop.
  - etrans; [apply sublist_take|apply sublist_drop].
Qed.

Lemma select_page_empty (limit offset : Z) (seq : Z) :
  select_page limit offset (Database ∅ seq) = [].
Proof.
  unfold select_page, sql_limit, sql_offset. simpl.
  rewrite map_to_list_empty. cbn.
  destruct (Z.to_nat offset), (Z.to_nat limit); by case_decide.
Qed.

(** The comprehension [[_parse_note_row(r) for r in rows]]. *)
Lemma parse_rows (rows : list row) (conn : connection) :
  mapM (λ r, _parse_note_row (Some r)) rows conn =
    (if decide (Forall row_ok rows) then Ok (note_of_row <$> rows)
     else Raise (ValidationError "string length out of bounds"),
     conn).
Proof.
  induction rows as [|r rows IH].
  - by rewrite decide_True by constructor.
  - change (mapM (λ r, _parse_note_row (Some r)) (r :: rows) conn)
      with (match _parse_note_row (Some r) conn with
            | (Ok y, conn') =>
                match mapM (λ r, _parse_note_row (Some r)) rows conn' with
                | (Ok k, conn'') => (Ok (y :: k), conn'')
                | (Raise e, conn'') => (Raise e, conn'')
                end
            | (Raise e, conn') => (Raise e, conn')
            end).
    unfold _parse_note_row at 1, NoteOut.model_validate.
    destruct (decide (NoteBase.title_ok (r_title r)
                      ∧ NoteBase.content_ok (r_content r))) as [Hr|Hr].
    + rewrite IH. destruct (decide (Forall row_ok rows)) as [Hrows|Hrows].
      * by rewrite decide_True by (by constructor).
      * rewrite decide_False; [done|]. by inversion 1.
    + rewrite decide_False; [done|]. by inversion 1.
Qed.

Lemma list_notes_bad_limit (limit offset : Z) :
  limit < 1 ∨ limit > 500 →
  list_notes limit offset now db =
    Outcome (Raise (HTTPException 422 "limit must be between 1 and 500"))
      db [].
Proof. intros Hl. unfold list_notes. by rewrite decide_True. Qed.

Lemma list_notes_bad_offset (limit offset : Z) :
  1 ≤ limit ≤ 500 → offset < 0 →
  list_notes limit offset now db =
    Outcome (Raise (HTTPException 422 "offset must be >= 0")) db [].
Proof.
  intros Hl Ho. unfold list_notes. rewrite decide_False by lia.
  by rewrite decide_True.
Qed.

Lemma list_notes_overflow (limit offset : Z) :
  1 ≤ limit ≤ 500 → INT64_MAX < offset →
  list_notes limit offset now db =
    Outcome
      (Raise (OverflowError "Python int too large to convert to SQLite INTEGER"))
      db [Connect; Close].
Proof.
  intros Hl Ho. unfold list_notes. rewrite decide_False by lia.
  rewrite decide_False by int64.
  unfold try_connection, execute_select_page, mbind, M_bind.
  rewrite bind_int_ok by (unfold in_int64; int64).
  rewrite bind_int_overflow by (unfold in_int64; int64). done.
Qed.

Lemma list_notes_in_range (limit offset : Z) :
  1 ≤ limit ≤ 500 → 0 ≤ offset ≤ INT64_MAX →
  list_notes limit offset now db =
    Outcome
      (if decide (Forall row_ok (select_page limit offset db))
       then Ok (note_of_row <$> select_page limit offset db)
       else Raise (ValidationError "string length out of bounds"))
      db [Connect; Execute (SELECT_PAGE limit offset); Close].
Proof.
  intros Hl Ho. unfold list_notes. rewrite decide_False by lia.
  rewrite decide_False by lia.
  unfold try_connection, execute_select_page, mbind, M_bind.
  rewrite !bind_int_ok by (unfold in_int64; int64).
  unfold run_select. simpl. rewrite parse_rows. simpl.
  by case_decide.
Qed.

End handler_facts.

(** ** The invariant of the data model *)

Section invariant.
Context (now : timestamp) (db : database).

Lemma get_note_stored (k : Z) :
  stored (get_note k now db) = db.
Proof.
  destruct (decide (k ≤ 0)); [by rewrite get_note_nonpositive|].
  destruct (decide (INT64_MAX < k)); [by rewrite get_note_overflow|].
  by rewrite get_note_lookup by lia.
Qed.

Lemma list_notes_stored (limit offset : Z) :
  stored (list_notes limit offset now db) = db.
Proof.
  destruct (decide (limit < 1 ∨ limit > 500)).
  { by rewrite list_notes_bad_limit. }
  destruct (decide (offset < 0)).
  { by rewrite list_notes_bad_offset by lia. }
  destruct (decide (INT64_MAX < offset)).
  { by rewrite list_notes_overflow by lia. }
  by rewrite list_notes_in_range by lia.
Qed.

Lemma store_inv_empty : store_inv now (Db.ensure_schema None).
Proof.
  split; [split; [simpl; int64|]|]; apply map_Forall_empty.
Qed.

Lemma store_inv_later (later : timestamp) :
  now ≤ later → store_inv now db → store_inv later db.
Proof.
  intros Hle [Hauto Hrows]. split; [done|].
  intros k c Hc. destruct (Hrows k c Hc) as (? & ? & ? & ?).
  split; [done|]. split; [done|]. lia.
Qed.

(** What the invariant says of one note. *)
Lemma store_inv_note (k : Z) (c : cells) :
  store_inv now db → notes db !! k = Some c →
  0 < k ≤ INT64_MAX ∧ cells_ok c
  ∧ created_at c ≤ updated_at c ∧ updated_at c ≤ now.
Proof.
  intros [[Hseq Hkeys] Hrows] Hc.
  destruct (Hrows k c Hc) as (? & ? & ? & ?).
  apply Hkeys in Hc. simpl in Hc.
  split; [lia|]. split; [done|]. lia.
Qed.

Lemma store_inv_create (payload : NoteCreate.t) :
  NoteBase.title_ok (NoteCreate.title payload) →
  NoteBase.content_ok (NoteCreate.content payload) →
  store_inv now db → store_inv now (stored (create_note payload now db)).
Proof.
  intros Ht Hc Hinv. destruct (new_rowid db) as [k|] eqn:Hk.
  - destruct Hinv as [[Hseq Hkeys] Hrows].
    destruct (new_rowid_fresh db k Hk) as (Hfresh & Hlt & Hmax).
    rewrite (create_note_ok db now payload k) by (done || lia).
    cbn [stored]. split; [split|]; cbn [notes seq].
    + lia.
    + apply map_Forall_insert_2; [simpl; lia|].
      intros j c Hj. apply Hkeys in Hj. simpl in *. lia.
    + apply map_Forall_insert_2; [|done].
      split; [lia|]. split; [done|]. simpl. lia.
  - by rewrite create_note_full.
Qed.

Lemma store_inv_update (k : Z) (payload : NoteUpdate.t) :
  update_ok payload →
  store_inv now db → store_inv now (stored (update_note k payload now db)).
Proof.
  intros [Ht Hc] Hinv.
  destruct (decide (k ≤ 0)); [by rewrite update_note_nonpositive|].
  destruct (decide (supplies_a_field payload)) as [Hp|Hp];
    [|by rewrite update_note_no_field by (done || lia)].
  destruct (decide (INT64_MAX < k)); [by rewrite update_note_overflow|].
  destruct (notes db !! k) as [old|] eqn:Hold;
    [|by rewrite update_note_missing by (done || lia)].
  rewrite (update_note_found db now k payload old) by (done || lia).
  destruct Hinv as [[Hseq Hkeys] Hrows].
  destruct (Hrows k old Hold) as (Hpos & [Hto Hco] & Hcu & Hun).
  cbn [stored]. split; [split|]; cbn [notes seq].
  - done.
  - apply map_Forall_insert_2; [by apply (Hkeys k old)|done].
  - apply map_Forall_insert_2; [|done].
    unfold updated_cells, cells_ok. cbn [title content created_at updated_at].
    split; [done|]. split; [|lia]. split.
    + by destruct (NoteUpdate.title payload).
    + by destruct (NoteUpdate.content payload).
Qed.

Lemma store_inv_delete (k : Z) :
  store_inv now db → store_inv now (stored (delete_note k now db)).
Proof.
  intros Hinv.
  destruct (decide (k ≤ 0)); [by rewrite delete_note_nonpositive|].
  destruct (decide (INT64_MAX < k)); [by rewrite delete_note_overflow|].
  rewrite delete_note_in_range by lia. unfold delete.
  destruct (notes db !! k) as [old|] eqn:Hold; [|done].
  destruct Hinv as [[Hseq Hkeys] Hrows].
  cbn [stored]. split; [split|]; cbn [notes seq]; [done| |];
    by apply map_Forall_delete.
Qed.

(** X3.  The invariant of the data model holds of the schema on an empty
    file ([store_inv_empty]), keeps holding as time passes, and is kept by
    every handler that runs on a validated request. *)
Theorem store_inv_preserved :
  store_inv now db →
  (∀ later, now ≤ later → store_inv later db)
  ∧ (∀ payload,
       NoteBase.title_ok (NoteCreate.title payload) →
       NoteBase.content_ok (NoteCreate.content payload) →
       store_inv now (stored (create_note payload now db)))
  ∧ (∀ note_id payload,
       update_ok payload →
       store_inv now (stored (update_note note_id payload now db)))
  ∧ (∀ note_id, store_inv now (stored (delete_note note_id now db)))
  ∧ (∀ note_id, store_inv now (stored (get_note note_id now db)))
  ∧ (∀ limit offset, store_inv now (stored (list_notes limit offset now db))).
Proof.
  intros Hinv.
  split; [|split; [|split; [|split; [|split]]]].
  - intros later Hle. by apply store_inv_later.
  - intros payload Ht Hc. by apply store_inv_create.
  - intros k payload Hp. by apply store_inv_update.
  - intros k. by apply store_inv_delete.
  - intros k. by rewrite get_note_stored.
  - intros limit offset. by rewrite list_notes_stored.
Qed.

(** X4.  An id is not assigned twice: [create_note] returns an id above the
    autoincrement counter and moves the counter to it, and neither
    [update_note] nor [delete_note] moves the counter. *)
Theorem ids_not_reused :
  autoincrement_ok db →
  (∀ payload note,
     returned (create_note payload now db) = Ok note →
     seq db < NoteOut.id note
     ∧ seq (stored (create_note payload now db)) = NoteOut.id note)
  ∧ (∀ note_id payload,
       seq (stored (update_note note_id payload now db)) = seq db)
  ∧ (∀ note_id, seq (stored (delete_note note_id now db)) = seq db).
Proof.
  intros [Hseq Hkeys].
  split; [|split].
  - intros payload note Hret.
    destruct (new_rowid db) as [k|] eqn:Hk;
      [|by rewrite create_note_full in Hret].
    destruct (new_rowid_fresh db k Hk) as (_ & Hlt & _).
    rewrite (create_note_inserted db now payload k) in Hret |- * by (done || lia).
    cbn [returned stored seq] in *.
    by apply model_validate_row_inv in Hret as (-> & _ & _).
  - intros k payload.
    destruct (decide (k ≤ 0)); [by rewrite update_note_nonpositive|].
    destruct (decide (supplies_a_field payload)) as [Hp|Hp];
      [|by rewrite update_note_no_field by (done || lia)].
    destruct (decide (INT64_MAX < k)); [by rewrite update_note_overflow|].
    destruct (notes db !! k) as [old|] eqn:Hold;
      [|by rewrite update_note_missing by (done || lia)].
    by rewrite (update_note_found db now k payload old) by (done || lia).
  - intros k.
    destruct (decide (k ≤ 0)); [by rewrite delete_note_nonpositive|].
    destruct (decide (INT64_MAX < k)); [by rewrite delete_note_overflow|].
    rewrite delete_note_in_range by lia. unfold delete.
    by destruct (notes db !! k).
Qed.

End invariant.

(** Every store that the handlers build is within the invariant. *)
Lemma reachable_store_inv (now : timestamp) (db : database) :
  reachable now db → store_inv now db.
Proof.
  induction 1 as [now|now later db r _ IH Hle Hr].
  - apply store_inv_empty.
  - apply (store_inv_later now db later Hle) in IH.
    destruct r as [payload|limit offset|k|k payload|k]; simpl in *.
    + destruct Hr. by apply store_inv_create.
    + by rewrite list_notes_stored.
    + by rewrite get_note_stored.
    + by apply store_inv_update.
    + by apply store_inv_delete.
Qed.

Lemma store_inv_preserved_witness :
  store_inv 5 (Db.ensure_schema None)
  ∧ store_inv 5
      (stored (create_note (NoteCreate.Make [67%N] [68%N]) 5
                 (Db.ensure_schema None))).
Proof.
  split; [apply store_inv_empty|].
  apply (store_inv_preserved 5 (Db.ensure_schema None) (store_inv_empty 5)).
  - unfold NoteBase.title_ok, len. simpl. lia.
  - unfold NoteBase.content_ok, len. simpl. lia.
Defined.

Lemma ids_not_reused_witness :
  let db := Db.ensure_schema None in
  let first := create_note (NoteCreate.Make [67%N] [68%N]) 5 db in
  let emptied := stored (delete_note 1 6 (stored first)) in
  let second := create_note (NoteCreate.Make [65%N] [66%N]) 6 emptied in
  returned first = Ok (NoteOut.Make 1 [67%N] [68%N] 5 5)
  ∧ notes emptied = ∅
  ∧ returned second = Ok (NoteOut.Make 2 [65%N] [66%N] 6 6)
  ∧ seq emptied < 2
  ∧ seq (stored second) = 2.
Proof.
  intros db first emptied second.
  split; [vm_compute; reflexivity|]. split; [vm_compute; reflexivity|].
  split; [vm_compute; reflexivity|].
  destruct (ids_not_reused 6 emptied) as (Hcreate & _ & _).
  - split.
    + assert (seq emptied = 1) as -> by (vm_compute; reflexivity).
      unfold INT64_MAX. lia.
    + apply (bool_decide_unpack _). vm_compute. reflexivity.
  - apply (Hcreate (NoteCreate.Make [65%N] [66%N])
             (NoteOut.Make 2 [65%N] [66%N] 6 6)).
    vm_compute. reflexivity.
Defined.

(** A body that passed validation makes a validated request. *)
Lemma model_validate_create (title content : str) (payload : NoteCreate.t) :
  NoteCreate.model_validate title content = Ok payload →
  payload = NoteCreate.Make title content
  ∧ valid_unicode title ∧ valid_unicode content
  ∧ validated (POST_notes payload).
Proof.
  unfold NoteCreate.model_validate. case_decide as H; [|done].
  intros [= <-]. simpl. tauto.
Qed.

Lemma model_validate_update (note_id : Z) (title content : option str)
    (payload : NoteUpdate.t) :
  NoteUpdate.model_validate title content = Ok payload →
  payload = NoteUpdate.Make title content
  ∧ validated (PUT_note note_id payload).
Proof.
  unfold NoteUpdate.model_validate. case_decide as H; [|done].
  intros [= <-]. split; [done|].
  destruct H as [Ht Hc]. unfold validated, update_ok.
  destruct title, content; simpl in *; tauto.
Qed.

(** The two notes of [two_notes] were created by the handlers, both at
    time 5. *)
Lemma two_notes_reachable : reachable 5 two_notes.
Proof.
  apply (reachable_serve 5 5 _ (POST_notes (NoteCreate.Make [65%N] [66%N])));
    [|lia|].
  - apply (reachable_serve 5 5 _ (POST_notes (NoteCreate.Make [67%N] [68%N])));
      [apply reachable_empty|lia|].
    unfold validated, NoteBase.title_ok, NoteBase.content_ok, len. simpl. lia.
  - unfold validated, NoteBase.title_ok, NoteBase.content_ok, len. simpl. lia.
Qed.

(** ** The specification, statement by statement *)

(** C1, as stated, fails on a title or content that holds a surrogate
    code point: it has its length within the bounds, and validation
    rejects it (422), so that no note is created. *)
Lemma create_then_get_counterexample :
  len [0xD800%N] = 1
  ∧ len (codepoints "x") = 1
  ∧ NoteCreate.model_validate [0xD800%N] (codepoints "x")
    = Raise (HTTPException 422 "validation error")
  ∧ NoteCreate.model_validate (codepoints "x") [0xDFFF%N]
    = Raise (HTTPException 422 "validation error").
Proof. repeat split; vm_compute; reflexivity. Qed.

(** C1, amended.  For a title of 1 to 200 code points and a content of 1
    to 50000 code points, none of them a surrogate, on a store whose
    autoincrement counter has not reached the largest rowid: the request
    passes validation, [create_note] returns a record, and [get_note] on
    the returned id, at any time [later], returns that same record; its
    title and content are the inputs, its id is positive, and its
    [updated_at] equals its [created_at]. *)
Theorem create_then_get (db : database) (now later : timestamp)
    (title content : str) :
  valid_unicode title →
  valid_unicode content →
  1 ≤ len title ≤ 200 →
  1 ≤ len content ≤ 50000 →
  autoincrement_ok db →
  seq db < INT64_MAX →
  ∃ payload note,
    NoteCreate.model_validate title content = Ok payload
    ∧ returned (create_note payload now db) = Ok note
    ∧ returned (get_note (NoteOut.id note) later
                  (stored (create_note payload now db))) = Ok note
    ∧ NoteOut.title note = title
    ∧ NoteOut.content note = content
    ∧ 0 < NoteOut.id note
    ∧ NoteOut.updated_at note = NoteOut.created_at note.
Proof.
  intros Hut Huc Ht Hc Hok Hroom.
  destruct (new_rowid_room db Hok Hroom) as [k Hk].
  destruct (new_rowid_fresh db k Hk) as (_ & Hlt & Hmax).
  destruct Hok as [Hseq _].
  assert (NoteBase.title_ok title) as Ht' by (unfold NoteBase.title_ok; lia).
  assert (NoteBase.content_ok content) as Hc'
    by (unfold NoteBase.content_ok; lia).
  exists (NoteCreate.Make title content),
         (note_of k (Cells title content now now)).
  split.
  { unfold NoteCreate.model_validate. by rewrite decide_True. }
  rewrite (create_note_ok db now (NoteCreate.Make title content) k)
    by (done || lia).
  cbn [returned stored note_of NoteOut.id]. split; [done|]. split.
  - rewrite get_note_lookup by lia. cbn [returned notes].
    rewrite lookup_insert_eq.
    cbn [NoteCreate.title NoteCreate.content].
    by apply model_validate_row.
  - simpl. repeat split; lia.
Qed.

Lemma create_then_get_witness :
  ∃ payload note,
    NoteCreate.model_validate (codepoints "Groceries")
      (codepoints "Milk, eggs, bread") = Ok payload
    ∧ returned (create_note payload 100 (Db.ensure_schema None)) = Ok note
    ∧ returned (get_note (NoteOut.id note) 160
                  (stored (create_note payload 100 (Db.ensure_schema None))))
      = Ok note
    ∧ NoteOut.title note = codepoints "Groceries"
    ∧ NoteOut.content note = codepoints "Milk, eggs, bread"
    ∧ 0 < NoteOut.id note
    ∧ NoteOut.updated_at note = NoteOut.created_at note.
Proof.
  apply (create_then_get (Db.ensure_schema None) 100 160
           (codepoints "Groceries") (codepoints "Milk, eggs, bread")).
  - apply (bool_decide_unpack _). vm_compute. reflexivity.
  - apply (bool_decide_unpack _). vm_compute. reflexivity.
  - unfold len. simpl. lia.
  - unfold len. simpl. lia.
  - split; [simpl; unfold INT64_MAX; lia | apply map_Forall_empty].
  - reflexivity.
Defined.




(** C3, as stated, fails when the clock has gone back: the trigger writes
    CURRENT_TIMESTAMP whatever the row held, so that a note stamped 5 and
    updated when the clock reads 3 comes back with an [updated_at]
    before the prior one. *)
Lemma update_note_frame_counterexample :
  let payload := NoteUpdate.Make None (Some [90%N]) in
  let old := Cells [67%N] [68%N] 5 5 in
  let note := NoteOut.Make 1 [67%N] [90%N] 5 3 in
  notes two_notes !! 1 = Some old
  ∧ returned (update_note 1 payload 3 two_notes) = Ok note
  ∧ NoteOut.updated_at note < updated_at old.
Proof. repeat split; vm_compute; reflexivity. Qed.

(** C3, amended.  For an existing note and a request that supplies a
    title, a content or both: the record that a successful [update_note]
    returns has the time of the update as its [updated_at], each supplied
    field at its supplied value, and each field that the request leaves
    out, the id and [created_at] as they were; the store holds that record
    for the id, every other row as it was, and the same autoincrement
    counter.  The [updated_at] is not before the prior one on every store
    that the handlers built, from an empty file and under a clock that did
    not go back, when the update is not before the last of their
    requests. *)
Theorem update_note_frame (db : database) (now : timestamp) (note_id : Z)
    (payload : NoteUpdate.t) (old : cells) (note : NoteOut.t) :
  notes db !! note_id = Some old →
  supplies_a_field payload →
  returned (update_note note_id payload now db) = Ok note →
  let after := stored (update_note note_id payload now db) in
  NoteOut.updated_at note = now
  ∧ (∀ earlier, reachable earlier db → earlier ≤ now →
       updated_at old ≤ NoteOut.updated_at note)
  ∧ NoteOut.title note = default (title old) (NoteUpdate.title payload)
  ∧ NoteOut.content note = default (content old) (NoteUpdate.content payload)
  ∧ NoteOut.id note = note_id
  ∧ NoteOut.created_at note = created_at old
  ∧ notes after !! note_id =
      Some (Cells (NoteOut.title note) (NoteOut.content note)
              (NoteOut.created_at note) (NoteOut.updated_at note))
  ∧ (∀ k, k ≠ note_id → notes after !! k = notes db !! k)
  ∧ seq after = seq db.
Proof.
  intros Hold Hp Hret after. subst after.
  destruct (decide (note_id ≤ 0)) as [Hneg|Hpos].
  { by rewrite update_note_nonpositive in Hret. }
  destruct (decide (INT64_MAX < note_id)) as [Hbig|Hfit].
  { by rewrite update_note_overflow in Hret. }
  rewrite (update_note_found db now note_id payload old) in Hret |- * by (done || lia).
  cbn [returned stored notes seq] in *.
  apply model_validate_row_inv in Hret as (-> & _ & _).
  cbn. rewrite lookup_insert_eq.
  split; [done|]. split.
  - intros earlier Hreach Hle.
    apply reachable_store_inv in Hreach.
    destruct (store_inv_note earlier db note_id old Hreach Hold)
      as (_ & _ & _ & Hstamp).
    lia.
  - repeat split; try done.
    intros k Hk. by rewrite lookup_insert_ne.
Qed.

Lemma update_note_frame_witness :
  let payload := NoteUpdate.Make None (Some [90%N]) in
  let old := Cells [67%N] [68%N] 5 5 in
  let note := NoteOut.Make 1 [67%N] [90%N] 5 8 in
  let after := stored (update_note 1 payload 8 two_notes) in
  (notes two_notes !! 1 = Some old
   ∧ returned (update_note 1 payload 8 two_notes) = Ok note)
  ∧ NoteOut.updated_at note = 8
  ∧ updated_at old ≤ NoteOut.updated_at note
  ∧ NoteOut.title note = default (title old) (NoteUpdate.title payload)
  ∧ NoteOut.content note = default (content old) (NoteUpdate.content payload)
  ∧ NoteOut.id note = 1
  ∧ NoteOut.created_at note = created_at old
  ∧ notes after !! 1 =
      Some (Cells (NoteOut.title note) (NoteOut.content note)
              (NoteOut.created_at note) (NoteOut.updated_at note))
  ∧ (∀ k, k ≠ 1 → notes after !! k = notes two_notes !! k)
  ∧ seq after = seq two_notes.
Proof.
  intros payload old note after.
  split; [split; vm_compute; reflexivity|].
  destruct (update_note_frame two_notes 8 1 payload old note)
    as (Hnow & Hlater & Hframe).
  - vm_compute. reflexivity.
  - intros [_ H]. discriminate H.
  - vm_compute. reflexivity.
  - split; [exact Hnow|]. split; [|exact Hframe].
    apply (Hlater 5); [apply two_notes_reachable|lia].
Defined.

(** C4, as stated, fails where a guard answers first: an id that is not
    positive, or a request without a field, is a validation error (422)
    although no row matches. *)
Lemma update_note_not_found_counterexample :
  notes (Db.ensure_schema None) !! 0 = None
  ∧ returned (update_note 0 (NoteUpdate.Make (Some [65%N]) None) 0
                (Db.ensure_schema None))
    = Raise (HTTPException 422 "note_id must be a positive integer")
  ∧ notes (Db.ensure_schema None) !! 1 = None
  ∧ returned (update_note 1 (NoteUpdate.Make None None) 0
                (Db.ensure_schema None))
    = Raise (HTTPException 422 "At least one of title/content must be provided").
Proof. repeat split; vm_compute; reflexivity. Qed.

(** C4, amended.  For a positive id within the 64-bit range that matches
    no row and a request that supplies a title, a content or both,
    [update_note] raises not-found (404); the store is as it was, and the
    existence query is the only statement that reached it: no UPDATE was
    executed whose row count could have been read. *)
Theorem update_note_not_found (db : database) (now : timestamp)
    (note_id : Z) (payload : NoteUpdate.t) :
  0 < note_id ≤ INT64_MAX →
  supplies_a_field payload →
  notes db !! note_id = None →
  update_note note_id payload now db =
    Outcome (Raise (HTTPException HTTP_404_NOT_FOUND "Not found")) db
      [Connect; Execute (SELECT_ID note_id); Close].
Proof. apply update_note_missing. Qed.

Lemma update_note_not_found_witness :
  update_note 3 (NoteUpdate.Make (Some [65%N]) None) 9 two_notes =
    Outcome (Raise (HTTPException HTTP_404_NOT_FOUND "Not found")) two_notes
      [Connect; Execute (SELECT_ID 3); Close].
Proof.
  apply (update_note_not_found two_notes 9 3 (NoteUpdate.Make (Some [65%N]) None)).
  - unfold INT64_MAX. lia.
  - intros [H _]. discriminate H.
  - vm_compute. reflexivity.
Defined.

(** C5.  For every store and every id, a request that supplies neither a
    title nor a content passes the model's validation, and [update_note]
    then raises a validation error (422, which is not 404) without a
    connection being made: the store is as it was and nothing reached the
    storage layer. *)
Theorem update_note_without_fields (db : database) (now : timestamp)
    (note_id : Z) :
  NoteUpdate.model_validate None None = Ok (NoteUpdate.Make None None)
  ∧ ∃ detail,
      update_note note_id (NoteUpdate.Make None None) now db =
        Outcome (Raise (HTTPException HTTP_422_UNPROCESSABLE_ENTITY detail))
          db []
      ∧ HTTP_422_UNPROCESSABLE_ENTITY ≠ HTTP_404_NOT_FOUND.
Proof.
  split; [done|].
  destruct (decide (note_id ≤ 0)) as [Hneg|Hpos].
  - eexists. split; [by apply update_note_nonpositive | done].
  - eexists. split; [apply update_note_no_field | done].
    + lia.
    + unfold supplies_a_field. simpl. tauto.
Qed.

(** C6, at an id beyond the 64-bit range.  No row matches [2 ^ 63], and
    [delete_note] neither reports not-found (404) nor maps the failure to a
    storage error (500): binding the id raises [OverflowError], which
    neither [except] clause catches, before the DELETE is executed. *)
Theorem delete_note_beyond_int64 :
  notes two_notes !! (2 ^ 63) = None
  ∧ delete_note (2 ^ 63) 9 two_notes =
      Outcome
        (Raise (OverflowError "Python int too large to convert to SQLite INTEGER"))
        two_notes [Connect; Close].
Proof. split; vm_compute; reflexivity. Qed.

(** X1, the part of C6 within the 64-bit range.  For a positive id that fits a 64-bit
    integer, [delete_note] executes one DELETE and raises not-found (404)
    exactly when its row count is zero; deleting an existing note returns
    204 and a [get_note] of that id afterwards raises not-found; deleting
    an id that matches no row raises not-found and leaves the store as it
    was. *)
Theorem delete_note_within_int64 (db : database) (now later : timestamp)
    (note_id : Z) :
  0 < note_id ≤ INT64_MAX →
  let out := delete_note note_id now db in
  trace out = [Connect; Execute (DELETE note_id); Commit; Close]
  ∧ (returned out = Raise (HTTPException HTTP_404_NOT_FOUND "Not found")
     ↔ (delete note_id db).2 = 0)
  ∧ (is_Some (notes db !! note_id) →
     returned out = Ok {| status_code := HTTP_204_NO_CONTENT |}
     ∧ returned (get_note note_id later (stored out))
       = Raise (HTTPException HTTP_404_NOT_FOUND "Not found"))
  ∧ (notes db !! note_id = None →
     returned out = Raise (HTTPException HTTP_404_NOT_FOUND "Not found")
     ∧ stored out = db).
Proof.
  intros Hid out. subst out.
  rewrite delete_note_in_range by done.
  rewrite get_note_lookup by done.
  unfold delete. destruct (notes db !! note_id) as [c|] eqn:Hc.
  - cbn [returned stored trace snd notes]. rewrite lookup_delete_eq.
    repeat split; done.
  - cbn [returned stored trace snd notes].
    repeat split; done.
Qed.

Lemma delete_note_within_int64_witness :
  let out := delete_note 1 9 two_notes in
  trace out = [Connect; Execute (DELETE 1); Commit; Close]
  ∧ (returned out = Raise (HTTPException HTTP_404_NOT_FOUND "Not found")
     ↔ (delete 1 two_notes).2 = 0)
  ∧ (is_Some (notes two_notes !! 1) →
     returned out = Ok {| status_code := HTTP_204_NO_CONTENT |}
     ∧ returned (get_note 1 12 (stored out))
       = Raise (HTTPException HTTP_404_NOT_FOUND "Not found"))
  ∧ (notes two_notes !! 1 = None →
     returned out = Raise (HTTPException HTTP_404_NOT_FOUND "Not found")
     ∧ stored out = two_notes).
Proof.
  apply (delete_note_within_int64 two_notes 9 12 1).
  unfold INT64_MAX. lia.
Defined.

(** C7, at an offset beyond the 64-bit range.  On the empty store, with a
    limit within [1, 500] and an offset that is not negative, [list_notes]
    does not return the empty list: binding the offset raises
    [OverflowError], which the [except] clause does not catch. *)
Theorem list_notes_offset_beyond_int64 :
  notes (Db.ensure_schema None) = ∅
  ∧ list_notes 1 (2 ^ 63) 0 (Db.ensure_schema None) =
      Outcome
        (Raise (OverflowError "Python int too large to convert to SQLite INTEGER"))
        (Db.ensure_schema None) [Connect; Close].
Proof. split; vm_compute; reflexivity. Qed.

(** X2, the part of C7 within the 64-bit range.  [list_notes] raises a validation error
    (422) without a connection being made when the limit is below 1 or
    above 500 or the offset is negative, so for limit 0; on a store
    without rows, with a limit within [1, 500] and an offset within
    [0, 2^63 - 1], it returns the empty list; a call that leaves out both
    arguments runs with limit 200 and offset 0. *)
Theorem list_notes_validation (db : database) (now : timestamp)
    (limit offset : Z) :
  (limit < 1 ∨ 500 < limit ∨ offset < 0 →
   ∃ detail,
     list_notes limit offset now db =
       Outcome (Raise (HTTPException HTTP_422_UNPROCESSABLE_ENTITY detail))
         db [])
  ∧ (∃ detail,
       list_notes 0 offset now db =
         Outcome (Raise (HTTPException HTTP_422_UNPROCESSABLE_ENTITY detail))
           db [])
  ∧ (1 ≤ limit ≤ 500 → 0 ≤ offset ≤ INT64_MAX → notes db = ∅ →
     list_notes limit offset now db =
       Outcome (Ok []) db [Connect; Execute (SELECT_PAGE limit offset); Close])
  ∧ list_notes_call None None = list_notes 200 0.
Proof.
  split; [|split; [|split; [|done]]].
  - intros Hbad. destruct (decide (limit < 1 ∨ limit > 500)) as [Hl|Hl].
    + eexists. by apply list_notes_bad_limit.
    + eexists. apply list_notes_bad_offset; lia.
  - eexists. apply list_notes_bad_limit. lia.
  - intros Hl Ho Hempty. rewrite list_notes_in_range by done.
    destruct db as [t n]. simpl in Hempty. subst t.
    by rewrite select_page_empty.
Qed.

Lemma startswith_sep_cons (p : string) :
  Db.startswith p "/" = true → ∃ p', p = String "/" p'.
Proof.
  destruct p as [|c p']; [done|]. unfold Db.startswith.
  cbn [String.prefix].
  destruct (Ascii.ascii_dec "/" c) as [<-|]; [eauto|done].
Qed.

Lemma startswith_sep_intro (p : string) :
  Db.startswith (String "/" p) "/" = true.
Proof.
  unfold Db.startswith. cbn [String.prefix].
  destruct (Ascii.ascii_dec "/" "/") as [_|Hne]; [|by destruct Hne].
  by destruct p.
Qed.

Lemma normpath_absolute (p : string) :
  Db.startswith p "/" = true → Db.startswith (Db.normpath p) "/" = true.
Proof.
  intros Hp. destruct (startswith_sep_cons p Hp) as [p' ->].
  unfold Db.normpath. rewrite bool_decide_eq_false_2 by done.
  unfold Db.initial_slashes. rewrite Hp.
  destruct (true && Db.startswith _ "//" && negb (Db.startswith _ "///"));
    cbn [replicate String.concat String.append];
    rewrite bool_decide_eq_false_2 by done;
    apply startswith_sep_intro.
Qed.

(** [abspath] of any path is absolute when the working directory is. *)
Lemma abspath_absolute (cwd path : string) :
  Db.startswith cwd "/" = true →
  Db.startswith (Db.abspath cwd path) "/" = true.
Proof.
  intros Hcwd. unfold Db.abspath. apply normpath_absolute.
  destruct (Db.startswith path "/") eqn:Hpath; [done|].
  unfold Db.join. rewrite Hpath.
  destruct (startswith_sep_cons cwd Hcwd) as [cwd' ->].
  destruct (_ || _); cbn [String.append]; apply startswith_sep_intro.
Qed.

(** C8.  [get_sqlite_db_path] returns the path that [abspath] makes of the
    value of SQLITE_DB, which is absolute when the working directory is,
    and that is the path whose existence it checks; it raises exactly when
    the value is absent (unset or empty) or no file exists at that path,
    and what it raises is the configuration failure, a [RuntimeError]. *)
Theorem get_sqlite_db_path_spec (sys : Db.os) :
  ((∃ e, Db.get_sqlite_db_path sys = Raise e)
   ↔ value_absent sys
     ∨ ∃ v, Db.environ sys !! "SQLITE_DB" = Some v
            ∧ Db.path_exists sys (Db.abspath (Db.getcwd sys) v) = false)
  ∧ (∀ e, Db.get_sqlite_db_path sys = Raise e → ∃ msg, e = RuntimeError msg)
  ∧ (∀ p, Db.get_sqlite_db_path sys = Ok p →
       ∃ v, Db.environ sys !! "SQLITE_DB" = Some v
            ∧ p = Db.abspath (Db.getcwd sys) v
            ∧ Db.path_exists sys p = true
            ∧ (Db.startswith (Db.getcwd sys) "/" = true →
               Db.startswith p "/" = true)).
Proof.
  unfold Db.get_sqlite_db_path, value_absent.
  destruct (Db.environ sys !! "SQLITE_DB") as [[|c v']|] eqn:Hv.
  - split; [|split].
    + split; [intros _; left; by right | eauto].
    + intros e [= <-]. eauto.
    + intros p Hp. discriminate Hp.
  - set (v := String c v') in *.
    destruct (Db.path_exists sys (Db.abspath (Db.getcwd sys) v)) eqn:Hex;
      cbn [negb]; (split; [|split]).
    + split; [intros [e He]; discriminate He|].
      intros [[Hnone|Hempty]|(w & Hw & Hno)]; [done|done|].
      injection Hw as <-. congruence.
    + intros e He. discriminate He.
    + intros p [= <-]. exists v. repeat split; try done.
      apply abspath_absolute.
    + split; [|eauto]. intros _. right. eauto.
    + intros e [= <-]. eauto.
    + intros p Hp. discriminate Hp.
  - split; [|split].
    + split; [intros _; left; by left | eauto].
    + intros e [= <-]. eauto.
    + intros p Hp. discriminate Hp.
Qed.

(** [get_sqlite_db_path] on three environments: a relative value, an
    empty value, a value that names no file. *)
Example get_sqlite_db_path_relative :
  Db.get_sqlite_db_path
    (Db.Os {["SQLITE_DB" := "data/../notes.db"]} "/srv/app"
       (λ p, bool_decide (p = "/srv/app/notes.db")))
  = Ok "/srv/app/notes.db".
Proof. vm_compute. reflexivity. Qed.

Example get_sqlite_db_path_empty :
  Db.get_sqlite_db_path (Db.Os {["SQLITE_DB" := ""]} "/srv/app" (λ _, true))
  = Raise (RuntimeError
      "Missing required environment variable SQLITE_DB. It must point to the SQLite database file produced by notes_database.").
Proof. vm_compute. reflexivity. Qed.

Example get_sqlite_db_path_no_file :
  Db.get_sqlite_db_path
    (Db.Os {["SQLITE_DB" := "notes.db"]} "/srv/app" (λ _, false))
  = Raise (RuntimeError
      "SQLITE_DB points to '/srv/app/notes.db', but that file does not exist.").
Proof. vm_compute. reflexivity. Qed.

(** C9.  For every store, time and input, [get_note] and [list_notes]
    leave the store as it was, whether they return, raise not-found, raise a
    validation error or raise anything else; no statement other than a
    SELECT reaches the store. *)
Theorem reads_leave_the_store (db : database) (now : timestamp) :
  (∀ note_id,
     stored (get_note note_id now db) = db
     ∧ Forall reads (trace (get_note note_id now db)))
  ∧ (∀ limit offset,
       stored (list_notes limit offset now db) = db
       ∧ Forall reads (trace (list_notes limit offset now db))).
Proof.
  split.
  - intros k. destruct (decide (k ≤ 0)).
    { rewrite get_note_nonpositive by done. by split. }
    destruct (decide (INT64_MAX < k)).
    { rewrite get_note_overflow by done. split; [done|].
      by repeat constructor. }
    rewrite get_note_lookup by lia. split; [done|]. by repeat constructor.
  - intros limit offset.
    destruct (decide (limit < 1 ∨ limit > 500)).
    { rewrite list_notes_bad_limit by done. by split. }
    destruct (decide (offset < 0)).
    { rewrite list_notes_bad_offset by lia. by split. }
    destruct (decide (INT64_MAX < offset)).
    { rewrite list_notes_overflow by lia. split; [done|].
      by repeat constructor. }
    rewrite list_notes_in_range by lia. split; [done|]. by repeat constructor.
Qed.

(** C10.  For an existing note with a positive id that fits a 64-bit
    integer and a row within the bounds of [NoteBase], as every note of a
    store within the invariant of the data model is ([store_inv_note]), and
    a request whose supplied fields (one at least) equal the stored ones:
    [update_note] returns the record with title, content and [created_at]
    as they were and [updated_at] at the time of the call; the UPDATE was
    executed and the store holds that row. *)
Theorem update_note_same_values (db : database) (now : timestamp)
    (note_id : Z) (payload : NoteUpdate.t) (old : cells) :
  0 < note_id ≤ INT64_MAX →
  notes db !! note_id = Some old →
  cells_ok old →
  supplies_a_field payload →
  (∀ t, NoteUpdate.title payload = Some t → t = title old) →
  (∀ c, NoteUpdate.content payload = Some c → c = content old) →
  let out := update_note note_id payload now db in
  returned out =
    Ok (NoteOut.Make note_id (title old) (content old) (created_at old) now)
  ∧ notes (stored out) !! note_id =
      Some (Cells (title old) (content old) (created_at old) now)
  ∧ trace out =
      [Connect; Execute (SELECT_ID note_id);
       Execute (update_statement payload note_id); Commit;
       Execute (SELECT_ROW note_id); Close].
Proof.
  intros Hid Hold Hok Hp Ht Hc out. subst out.
  rewrite (update_note_found db now note_id payload old) by done.
  cbn [returned stored trace notes].
  assert (updated_cells payload now old
          = Cells (title old) (content old) (created_at old) now) as ->.
  { unfold updated_cells.
    destruct payload as [[t|] [c|]]; simpl in *;
      rewrite <- ?(Ht _ eq_refl), <- ?(Hc _ eq_refl); done. }
  rewrite lookup_insert_eq. split; [|done].
  by rewrite model_validate_row.
Qed.

Lemma update_note_same_values_witness :
  let payload := NoteUpdate.Make (Some [67%N]) None in
  let out := update_note 1 payload 8 two_notes in
  notes two_notes !! 1 = Some (Cells [67%N] [68%N] 5 5)
  ∧ returned out = Ok (NoteOut.Make 1 [67%N] [68%N] 5 8)
  ∧ notes (stored out) !! 1 = Some (Cells [67%N] [68%N] 5 8)
  ∧ trace out =
      [Connect; Execute (SELECT_ID 1); Execute (UPDATE_TITLE [67%N] 1);
       Commit; Execute (SELECT_ROW 1); Close].
Proof.
  intros payload out. split; [vm_compute; reflexivity|].
  apply (update_note_same_values two_notes 8 1 payload (Cells [67%N] [68%N] 5 5)).
  - unfold INT64_MAX. lia.
  - vm_compute. reflexivity.
  - unfold cells_ok, NoteBase.title_ok, NoteBase.content_ok, len. simpl. lia.
  - intros [H _]. discriminate H.
  - intros t [= <-]. reflexivity.
  - intros c H. discriminate H.
Defined.


(** ** The scenario of the specification

    Create "Groceries", replace its content a minute later, delete it, and
    look for it. *)
Example groceries_scenario :
  let groceries := codepoints "Groceries" in
  let created :=
    create_note (NoteCreate.Make groceries (codepoints "Milk, eggs, bread"))
      100 (Db.ensure_schema None) in
  let updated :=
    update_note 1
      (NoteUpdate.Make None (Some (codepoints "Milk, eggs, bread, butter")))
      160 (stored created) in
  let deleted := delete_note 1 170 (stored updated) in
  returned created
    = Ok (NoteOut.Make 1 groceries (codepoints "Milk, eggs, bread") 100 100)
  ∧ returned updated
    = Ok (NoteOut.Make 1 groceries (codepoints "Milk, eggs, bread, butter")
            100 160)
  ∧ returned deleted = Ok {| status_code := 204 |}
  ∧ returned (get_note 1 180 (stored deleted))
    = Raise (HTTPException 404 "Not found").
Proof. repeat split; vm_compute; reflexivity. Qed.

(** * Further properties of the handlers *)

(** ** [get_note] *)

(** X5.  [get_note] answers an id that is not positive with 422 before any
    connection is made.  For a positive id that fits a 64-bit integer it
    executes the one SELECT and raises not-found (404) when no row has the
    id, returns the row's record when the row is within the bounds of
    [NoteBase], and raises pydantic's [ValidationError], which no [except]
    clause catches, when the stored title or content is outside them. *)
Theorem get_note_outcomes (db : database) (now : timestamp) (note_id : Z) :
  (note_id ≤ 0 →
   get_note note_id now db =
     Outcome (Raise (HTTPException HTTP_422_UNPROCESSABLE_ENTITY
                       "note_id must be a positive integer")) db [])
  ∧ (0 < note_id ≤ INT64_MAX →
     trace (get_note note_id now db) =
       [Connect; Execute (SELECT_ROW note_id); Close]
     ∧ (notes db !! note_id = None →
        returned (get_note note_id now db) =
          Raise (HTTPException HTTP_404_NOT_FOUND "Not found"))
     ∧ (∀ c, notes db !! note_id = Some c → cells_ok c →
          returned (get_note note_id now db) = Ok (note_of note_id c))
     ∧ (∀ c, notes db !! note_id = Some c → ¬ cells_ok c →
          ∃ msg, returned (get_note note_id now db)
                 = Raise (ValidationError msg))).
Proof.
  split; [apply get_note_nonpositive|].
  intros Hid. rewrite get_note_lookup by done. cbn [trace returned].
  split; [done|]. split; [by intros ->|]. split.
  - intros c -> Hc. by apply model_validate_row.
  - intros c -> Hc. unfold NoteOut.model_validate. cbn [row_of r_title r_content].
    rewrite decide_False by done. eauto.
Qed.

(** ** [create_note] *)

Lemma new_rowid_next (db : database) :
  autoincrement_ok db → seq db < INT64_MAX → new_rowid db = Some (seq db + 1).
Proof.
  intros [Hseq Hkeys] Hroom. unfold new_rowid.
  destruct (last_rowid (notes db)) as [m|] eqn:Hm.
  - destruct (last_rowid_elem _ _ Hm) as [c Hc].
    apply Hkeys in Hc. simpl in Hc.
    rewrite decide_False by lia. rewrite decide_False by lia.
    f_equal. lia.
  - rewrite decide_False by lia. f_equal. lia.
Qed.

Lemma new_rowid_exhausted (db : database) :
  INT64_MAX ≤ seq db → new_rowid db = None.
Proof.
  intros Hfull. unfold new_rowid.
  destruct (last_rowid (notes db)) as [m|]; repeat case_decide; done.
Qed.



(** The two notes of [two_notes] were created by the handlers. *)
Lemma two_notes_inv : store_inv 5 two_notes.
Proof. apply reachable_store_inv, two_notes_reachable. Qed.

(** ** Requests that fail *)

(** X7.  On a store within the invariant of the data model, a validated
    request that raises, whatever it raises, leaves the store as it was:
    no handler commits a change and then fails. *)
Theorem failed_request_leaves_store (now : timestamp) (db : database)
    (r : request) :
  store_inv now db → validated r → raised r now db → serve r now db = db.
Proof.
  intros Hinv Hr Hraised.
  destruct r as [payload|limit offset|k|k payload|k]; simpl in *.
  - destruct Hr as [Ht Hc], Hraised as [e He].
    destruct Hinv as [Hok _].
    destruct (decide (seq db < INT64_MAX)) as [Hroom|Hfull].
    + rewrite (create_note_ok db now payload (seq db + 1)) in He;
        [done| by destruct Hok as [[? ?] _] | by apply new_rowid_next
        | done | done].
    + rewrite create_note_full; [done|].
      apply new_rowid_exhausted. lia.
  - apply list_notes_stored.
  - apply get_note_stored.
  - destruct Hraised as [e He].
    destruct (decide (k ≤ 0)); [by rewrite update_note_nonpositive|].
    destruct (decide (supplies_a_field payload)) as [Hp|Hp];
      [|by rewrite update_note_no_field by (done || lia)].
    destruct (decide (INT64_MAX < k)); [by rewrite update_note_overflow|].
    destruct (notes db !! k) as [old|] eqn:Hold;
      [|by rewrite update_note_missing by (done || lia)].
    rewrite (update_note_found db now k payload old) in He by (done || lia).
    cbn [returned] in He.
    destruct (store_inv_note now db k old Hinv Hold) as (_ & [Hto Hco] & _).
    rewrite model_validate_row in He; [done|].
    destruct Hr as [Ht Hc]. unfold updated_cells, cells_ok.
    cbn [title content]. split.
    + by destruct (NoteUpdate.title payload).
    + by destruct (NoteUpdate.content payload).
  - destruct Hraised as [e He].
    destruct (decide (k ≤ 0)); [by rewrite delete_note_nonpositive|].
    destruct (decide (INT64_MAX < k)); [by rewrite delete_note_overflow|].
    rewrite delete_note_in_range in He |- * by lia. unfold delete in *.
    by destruct (notes db !! k).
Qed.

Lemma failed_request_leaves_store_witness :
  store_inv 5 two_notes
  ∧ returned (update_note 7 (NoteUpdate.Make (Some [65%N]) None) 9 two_notes)
    = Raise (HTTPException 404 "Not found")
  ∧ serve (PUT_note 7 (NoteUpdate.Make (Some [65%N]) None)) 9 two_notes
    = two_notes.
Proof.
  split; [exact two_notes_inv|]. split; [vm_compute; reflexivity|].
  apply (failed_request_leaves_store 9 two_notes).
  - apply (store_inv_later 5); [lia|exact two_notes_inv].
  - unfold validated, update_ok, NoteBase.title_ok, len. simpl. lia.
  - eexists. vm_compute. reflexivity.
Defined.

(** ** Listings *)

(** X8.  On a store within the invariant of the data model, every record
    of a list that [list_notes] returns is the record that [get_note]
    returns for its id. *)
Theorem listed_notes_are_gettable (now later : timestamp) (db : database)
    (limit offset : Z) (l : list NoteOut.t) (n : NoteOut.t) :
  store_inv now db →
  returned (list_notes limit offset now db) = Ok l →
  n ∈ l →
  returned (get_note (NoteOut.id n) later db) = Ok n.
Proof.
  intros Hinv Hl Hn.
  destruct (decide (limit < 1 ∨ limit > 500)).
  { by rewrite list_notes_bad_limit in Hl. }
  destruct (decide (offset < 0)).
  { by rewrite list_notes_bad_offset in Hl by lia. }
  destruct (decide (INT64_MAX < offset)).
  { by rewrite list_notes_overflow in Hl by lia. }
  rewrite list_notes_in_range in Hl by lia. cbn [returned] in Hl.
  case_decide; [|done]. injection Hl as <-.
  apply list_elem_of_fmap in Hn as (r & -> & Hr).
  apply select_page_elem in Hr as (c & Hc & ->).
  destruct (store_inv_note now db _ c Hinv Hc) as (Hid & Hok & _).
  cbn [note_of_row row_of r_id NoteOut.id] in *.
  rewrite get_note_lookup by done. cbn [returned]. rewrite Hc.
  by rewrite model_validate_row.
Qed.

Lemma listed_notes_are_gettable_witness :
  returned (list_notes 1 1 9 two_notes) = Ok [NoteOut.Make 1 [67%N] [68%N] 5 5]
  ∧ returned (get_note 1 12 two_notes) = Ok (NoteOut.Make 1 [67%N] [68%N] 5 5).
Proof.
  split; [vm_compute; reflexivity|].
  apply (listed_notes_are_gettable 5 12 two_notes 1 1
           [NoteOut.Make 1 [67%N] [68%N] 5 5]
           (NoteOut.Make 1 [67%N] [68%N] 5 5)).
  - exact two_notes_inv.
  - vm_compute. reflexivity.
  - apply list_elem_of_In. simpl. left. reflexivity.
Defined.

Lemma select_page_app (db : database) (k1 k2 offset : Z) :
  0 ≤ k1 → 0 ≤ k2 → 0 ≤ offset →
  select_page (k1 + k2) offset db =
    select_page k1 offset db ++ select_page k2 (offset + k1) db.
Proof.
  intros H1 H2 Ho. unfold select_page, sql_limit, sql_offset.
  rewrite !decide_False by lia.
  rewrite !Z2Nat.inj_add by lia.
  rewrite <- drop_drop. by rewrite take_take_drop.
Qed.

(** X9.  Two pages that follow each other make up the page of their joint
    size: when [list_notes] returns [l1] for [k1] rows from [offset] and
    [l2] for [k2] rows from [offset + k1], and [k1 + k2] is at most 500, it
    returns [l1 ++ l2] for [k1 + k2] rows from [offset]. *)
Theorem list_notes_adjacent_pages (db : database) (now : timestamp)
    (k1 k2 offset : Z) (l1 l2 : list NoteOut.t) :
  k1 + k2 ≤ 500 →
  returned (list_notes k1 offset now db) = Ok l1 →
  returned (list_notes k2 (offset + k1) now db) = Ok l2 →
  returned (list_notes (k1 + k2) offset now db) = Ok (l1 ++ l2).
Proof.
  intros Hsum H1 H2.
  destruct (decide (k1 < 1 ∨ k1 > 500)).
  { by rewrite list_notes_bad_limit in H1. }
  destruct (decide (k2 < 1 ∨ k2 > 500)).
  { by rewrite list_notes_bad_limit in H2. }
  destruct (decide (offset < 0)).
  { by rewrite list_notes_bad_offset in H1 by lia. }
  destruct (decide (INT64_MAX < offset + k1)).
  { by rewrite list_notes_overflow in H2 by lia. }
  rewrite list_notes_in_range in H1, H2 |- * by lia.
  cbn [returned] in *.
  destruct (decide (Forall row_ok (select_page k1 offset db))); [|done].
  destruct (decide (Forall row_ok (select_page k2 (offset + k1) db))); [|done].
  injection H1 as <-. injection H2 as <-.
  rewrite select_page_app by lia.
  rewrite decide_True by (by apply Forall_app).
  by rewrite fmap_app.
Qed.

Lemma list_notes_adjacent_pages_witness :
  returned (list_notes 1 0 9 two_notes) = Ok [NoteOut.Make 2 [65%N] [66%N] 5 5]
  ∧ returned (list_notes 1 1 9 two_notes) = Ok [NoteOut.Make 1 [67%N] [68%N] 5 5]
  ∧ returned (list_notes 2 0 9 two_notes)
    = Ok [NoteOut.Make 2 [65%N] [66%N] 5 5; NoteOut.Make 1 [67%N] [68%N] 5 5].
Proof.
  split; [vm_compute; reflexivity|]. split; [vm_compute; reflexivity|].
  apply (list_notes_adjacent_pages two_notes 9 1 1 0
           [NoteOut.Make 2 [65%N] [66%N] 5 5]
           [NoteOut.Make 1 [67%N] [68%N] 5 5]).
  - lia.
  - vm_compute. reflexivity.
  - vm_compute. reflexivity.
Defined.

Lemma select_page_count (db : database) (limit offset : Z) :
  0 ≤ limit → 0 ≤ offset →
  Z.of_nat (length (select_page limit offset db)) =
    Z.min limit (Z.max 0 (Z.of_nat (size (notes db)) - offset)).
Proof.
  intros Hl Ho. unfold select_page, sql_limit, sql_offset.
  rewrite decide_False by lia.
  rewrite length_take, length_drop.
  rewrite merge_sort_Permutation, length_fmap, length_map_to_list. lia.
Qed.

(** X10.  A list that [list_notes] returns has as many records as the
    store has notes from [offset] on, up to [limit]: nothing is left out
    of a page and nothing is in it twice. *)
Theorem list_notes_count (db : database) (now : timestamp)
    (limit offset : Z) (l : list NoteOut.t) :
  returned (list_notes limit offset now db) = Ok l →
  Z.of_nat (length l) =
    Z.min limit (Z.max 0 (Z.of_nat (size (notes db)) - offset))
  ∧ NoDup (NoteOut.id <$> l)
  ∧ ∀ n, n ∈ l → ∃ c, notes db !! NoteOut.id n = Some c
                      ∧ n = note_of (NoteOut.id n) c.
Proof.
  intros Hl.
  destruct (decide (limit < 1 ∨ limit > 500)).
  { by rewrite list_notes_bad_limit in Hl. }
  destruct (decide (offset < 0)).
  { by rewrite list_notes_bad_offset in Hl by lia. }
  destruct (decide (INT64_MAX < offset)).
  { by rewrite list_notes_overflow in Hl by lia. }
  rewrite list_notes_in_range in Hl by lia. cbn [returned] in Hl.
  case_decide; [|done]. injection Hl as <-.
  split; [|split].
  - rewrite length_fmap. apply select_page_count; lia.
  - rewrite <- list_fmap_compose. apply select_page_ids.
  - intros note Hnote. apply list_elem_of_fmap in Hnote as (r & -> & Hr).
    apply select_page_elem in Hr as (c & Hc & ->). eauto.
Qed.

Lemma list_notes_count_witness :
  returned (list_notes 5 1 9 two_notes) = Ok [NoteOut.Make 1 [67%N] [68%N] 5 5]
  ∧ Z.of_nat (length [NoteOut.Make 1 [67%N] [68%N] 5 5]) =
      Z.min 5 (Z.max 0 (Z.of_nat (size (notes two_notes)) - 1)).
Proof.
  split; [vm_compute; reflexivity|].
  apply (list_notes_count two_notes 9 5 1 [NoteOut.Make 1 [67%N] [68%N] 5 5]).
  vm_compute. reflexivity.
Defined.

#[local] Existing Instance order_by_total.
#[local] Existing Instance order_by_trans.

(** The row that may stand before every other stands first. *)
Lemma sorted_head (s : list row) (x : row) :
  StronglySorted order_by s →
  NoDup (r_id <$> s) →
  x ∈ s →
  (∀ y, y ∈ s → order_by x y) →
  head s = Some x.
Proof.
  intros Hsorted Hids Hx Hfirst.
  destruct s as [|h t]; [by apply elem_of_nil in Hx|].
  apply elem_of_cons in Hx as [->|Hx]; [done|].
  exfalso.
  apply StronglySorted_inv in Hsorted as [_ Hh].
  rewrite Forall_forall in Hh. specialize (Hh x Hx).
  assert (order_by x h) as Hxh by (apply Hfirst; left).
  assert (r_id h = r_id x) as Heq.
  { unfold order_by, datetime in *. lia. }
  rewrite fmap_cons in Hids. apply NoDup_cons in Hids as [Hnotin _].
  apply Hnotin. rewrite Heq. apply list_elem_of_fmap. eauto.
Qed.

Lemma select_page_head (db : database) (limit : Z) (x : row) :
  1 ≤ limit →
  (∃ c, notes db !! r_id x = Some c ∧ x = row_of (r_id x) c) →
  (∀ k c, notes db !! k = Some c → order_by x (row_of k c)) →
  head (select_page limit 0 db) = Some x.
Proof.
  intros Hlimit (c & Hc & Hx) Hfirst.
  assert (head (select_page limit 0 db)
          = head (merge_sort order_by
                    (uncurry row_of <$> map_to_list (notes db)))) as ->.
  { unfold select_page, sql_limit, sql_offset. rewrite decide_False by lia.
    change (Z.to_nat 0) with 0%nat. rewrite drop_0.
    destruct (Z.to_nat limit) as [|n] eqn:Hn; [lia|].
    by destruct (merge_sort _ _). }
  apply sorted_head.
  - apply (StronglySorted_merge_sort order_by).
  - rewrite merge_sort_Permutation, <- list_fmap_compose.
    rewrite (list_fmap_ext _ fst (map_to_list (notes db)))
      by (by intros i [k' c'] _).
    apply NoDup_fst_map_to_list.
  - rewrite merge_sort_Permutation. apply list_elem_of_fmap.
    exists (r_id x, c). split; [done|]. by apply elem_of_map_to_list.
  - intros y Hy. rewrite merge_sort_Permutation in Hy.
    apply list_elem_of_fmap in Hy as ([k' c'] & -> & Hkc).
    apply elem_of_map_to_list in Hkc. by apply Hfirst.
Qed.

(** X11.  On a store within the invariant of the data model at the time of
    the call, the note that [create_note] returns is the first record of
    every list that [list_notes] then returns from offset 0. *)
Theorem created_note_is_listed_first (now later : timestamp) (db : database)
    (payload : NoteCreate.t) (note : NoteOut.t) (limit : Z)
    (l : list NoteOut.t) :
  store_inv now db →
  returned (create_note payload now db) = Ok note →
  returned (list_notes limit 0 later (stored (create_note payload now db)))
    = Ok l →
  head l = Some note.
Proof.
  intros Hinv Hnote Hl.
  destruct (decide (limit < 1 ∨ limit > 500)).
  { by rewrite list_notes_bad_limit in Hl. }
  rewrite list_notes_in_range in Hl by int64. cbn [returned] in Hl.
  case_decide; [|done]. injection Hl as <-.
  destruct Hinv as [[Hseq Hkeys] Hrows].
  destruct (new_rowid db) as [k|] eqn:Hk;
    [|by rewrite create_note_full in Hnote].
  destruct (new_rowid_fresh db k Hk) as (Hfresh & Hlt & _).
  rewrite (create_note_inserted db now payload k) in Hnote |- * by (done || lia).
  cbn [returned stored] in *.
  apply model_validate_row_inv in Hnote as (-> & _ & _).
  set (c := Cells (NoteCreate.title payload) (NoteCreate.content payload)
              now now) in *.
  match goal with
  | |- head (_ <$> select_page limit 0 ?d) = _ =>
      assert (head (select_page limit 0 d) = Some (row_of k c)) as Hhead
  end.
  { apply select_page_head; [lia| |].
  - exists c. cbn [notes row_of r_id]. by rewrite lookup_insert_eq.
  - intros j d. cbn [notes]. rewrite lookup_insert.
    case_decide as Hj.
    + intros [= <-]. subst j. unfold order_by, datetime. simpl. lia.
    + intros Hd. pose proof (Hkeys j d Hd) as Hle.
      destruct (Hrows j d Hd) as (_ & _ & _ & Hnow).
      unfold order_by, datetime. simpl in *. lia. }
  assert (∀ rows : list row,
            head (note_of_row <$> rows) = note_of_row <$> head rows) as ->
    by (by intros [|h t]).
  by rewrite Hhead.
Qed.

Lemma created_note_is_listed_first_witness :
  let created := create_note (NoteCreate.Make [69%N] [70%N]) 5 two_notes in
  returned created = Ok (NoteOut.Make 3 [69%N] [70%N] 5 5)
  ∧ returned (list_notes 2 0 6 (stored created))
    = Ok [NoteOut.Make 3 [69%N] [70%N] 5 5; NoteOut.Make 2 [65%N] [66%N] 5 5]
  ∧ head [NoteOut.Make 3 [69%N] [70%N] 5 5; NoteOut.Make 2 [65%N] [66%N] 5 5]
    = Some (NoteOut.Make 3 [69%N] [70%N] 5 5).
Proof.
  intros created.
  split; [vm_compute; reflexivity|]. split; [vm_compute; reflexivity|].
  apply (created_note_is_listed_first 5 6 two_notes
           (NoteCreate.Make [69%N] [70%N]) _ 2).
  - exact two_notes_inv.
  - vm_compute. reflexivity.
  - vm_compute. reflexivity.
Defined.

(** ** [update_note] and [delete_note] *)

(** X12.  The record that a successful [update_note] returns is the record
    that [get_note] returns for the id afterwards, at any time. *)
Theorem update_then_get (db : database) (now later : timestamp) (note_id : Z)
    (payload : NoteUpdate.t) (note : NoteOut.t) :
  returned (update_note note_id payload now db) = Ok note →
  returned (get_note note_id later (stored (update_note note_id payload now db)))
    = Ok note.
Proof.
  intros Hret.
  destruct (decide (note_id ≤ 0)).
  { by rewrite update_note_nonpositive in Hret. }
  destruct (decide (supplies_a_field payload)) as [Hp|Hp];
    [|by rewrite update_note_no_field in Hret by (done || lia)].
  destruct (decide (INT64_MAX < note_id)).
  { by rewrite update_note_overflow in Hret. }
  destruct (notes db !! note_id) as [old|] eqn:Hold;
    [|by rewrite update_note_missing in Hret by (done || lia)].
  rewrite (update_note_found db now note_id payload old) in Hret |- *
    by (done || lia).
  cbn [returned stored] in *.
  rewrite get_note_lookup by lia. cbn [returned notes].
  by rewrite lookup_insert_eq.
Qed.

Lemma update_then_get_witness :
  let updated := update_note 2 (NoteUpdate.Make (Some [88%N]) None) 8 two_notes in
  returned updated = Ok (NoteOut.Make 2 [88%N] [66%N] 5 8)
  ∧ returned (get_note 2 9 (stored updated))
    = Ok (NoteOut.Make 2 [88%N] [66%N] 5 8).
Proof.
  intros updated. split; [vm_compute; reflexivity|].
  apply (update_then_get two_notes 8 9 2 (NoteUpdate.Make (Some [88%N]) None)).
  vm_compute. reflexivity.
Defined.



(** X14.  When [delete_note] returns, it returns 204, the note existed, and
    the store holds every other note as it was, no note with the id, and
    the same autoincrement counter. *)
Theorem delete_note_frame (db : database) (now : timestamp) (note_id : Z)
    (response : Response) :
  returned (delete_note note_id now db) = Ok response →
  status_code response = HTTP_204_NO_CONTENT
  ∧ is_Some (notes db !! note_id)
  ∧ notes (stored (delete_note note_id now db)) = base.delete note_id (notes db)
  ∧ seq (stored (delete_note note_id now db)) = seq db.
Proof.
  intros Hret.
  destruct (decide (note_id ≤ 0)).
  { by rewrite delete_note_nonpositive in Hret. }
  destruct (decide (INT64_MAX < note_id)).
  { by rewrite delete_note_overflow in Hret. }
  rewrite delete_note_in_range in Hret |- * by lia. unfold delete in *.
  destruct (notes db !! note_id) as [old|]; [|done].
  cbn [returned stored notes seq] in *.
  rewrite decide_False in Hret by done. injection Hret as <-. eauto.
Qed.

Lemma delete_note_frame_witness :
  returned (delete_note 2 9 two_notes) = Ok {| status_code := 204 |}
  ∧ notes (stored (delete_note 2 9 two_notes)) = base.delete 2 (notes two_notes)
  ∧ notes (stored (delete_note 2 9 two_notes)) !! 1
    = Some (Cells [67%N] [68%N] 5 5).
Proof.
  split; [vm_compute; reflexivity|].
  destruct (delete_note_frame two_notes 9 2 {| status_code := 204 |})
    as (_ & _ & Hnotes & _); [vm_compute; reflexivity|].
  split; [exact Hnotes|]. vm_compute. reflexivity.
Defined.

(** ** Connections *)

Lemma create_note_events (db : database) (now : timestamp)
    (payload : NoteCreate.t) :
  ∃ mid, trace (create_note payload now db) = Connect :: mid ++ [Close]
         ∧ Forall inside mid.
Proof.
  unfold create_note, try_connection, mbind, M_bind, execute_insert, insert.
  simpl. destruct (new_rowid db) as [k|]; simpl.
  - unfold execute_select_row, mbind, M_bind, bind_int.
    case_decide; simpl.
    + eexists [_; _; _]. split; [done|]. by repeat constructor.
    + eexists [_; _]. split; [done|]. by repeat constructor.
  - eexists [_]. split; [done|]. by repeat constructor.
Qed.

(** X15.  Whatever the store, the time and the request, a handler either
    reaches the storage layer not at all, or opens one connection first and
    closes it last, on every path: return, 404, 500 and exceptions that it
    does not catch. *)
Theorem connection_is_closed (now : timestamp) (db : database) (r : request) :
  events r now db = []
  ∨ ∃ mid, events r now db = Connect :: mid ++ [Close] ∧ Forall inside mid.
Proof.
  destruct r as [payload|limit offset|k|k payload|k]; simpl.
  - right. apply create_note_events.
  - destruct (decide (limit < 1 ∨ limit > 500)).
    { left. by rewrite list_notes_bad_limit. }
    destruct (decide (offset < 0)).
    { left. by rewrite list_notes_bad_offset by lia. }
    right. destruct (decide (INT64_MAX < offset)).
    + rewrite list_notes_overflow by lia. by exists [].
    + rewrite list_notes_in_range by lia.
      eexists [_]. split; [done|]. by repeat constructor.
  - destruct (decide (k ≤ 0)); [left; by rewrite get_note_nonpositive|].
    right. destruct (decide (INT64_MAX < k)).
    + rewrite get_note_overflow by done. by exists [].
    + rewrite get_note_lookup by lia.
      eexists [_]. split; [done|]. by repeat constructor.
  - destruct (decide (k ≤ 0)); [left; by rewrite update_note_nonpositive|].
    destruct (decide (supplies_a_field payload)) as [Hp|Hp];
      [|left; by rewrite update_note_no_field by (done || lia)].
    right. destruct (decide (INT64_MAX < k)).
    { rewrite update_note_overflow by done. by exists []. }
    destruct (notes db !! k) as [old|] eqn:Hold.
    + rewrite (update_note_found db now k payload old) by (done || lia).
      eexists [_; _; _; _]. split; [done|]. by repeat constructor.
    + rewrite update_note_missing by (done || lia).
      eexists [_]. split; [done|]. by repeat constructor.
  - destruct (decide (k ≤ 0)); [left; by rewrite delete_note_nonpositive|].
    right. destruct (decide (INT64_MAX < k)).
    + rewrite delete_note_overflow by done. by exists [].
    + rewrite delete_note_in_range by lia.
      destruct (delete k db) as [db' rowcount].
      eexists [_; _]. split; [done|]. by repeat constructor.
Qed.

(** ** [_dict_factory] *)

Lemma dict_factory_loop_spec {V} (description : list string) (row : list V)
    (idx : nat) (d0 : gmap string V) :
  (idx + length description ≤ length row)%nat →
  ∃ d, Rows._dict_factory_loop idx description row d0 = Some d
       ∧ (∀ col, col ∉ description → d !! col = d0 !! col)
       ∧ (∀ col, col ∈ description → is_Some (d !! col))
       ∧ (∀ i col, description !! i = Some col →
            (∀ j, (i < j)%nat → description !! j ≠ Some col) →
            d !! col = row !! (idx + i)%nat).
Proof.
  revert idx d0. induction description as [|c description IH];
    intros idx d0 Hlen; simpl in *.
  - exists d0. split; [done|]. split; [done|]. split.
    + intros col Hcol. by apply elem_of_nil in Hcol.
    + by intros i col Hi.
  - destruct (row !! idx) as [v|] eqn:Hv;
      [|apply lookup_ge_None in Hv; lia].
    destruct (IH (S idx) (<[c := v]> d0)) as (d & -> & Hout & Hin & Hlast);
      [lia|].
    exists d. split; [done|]. split; [|split].
    + intros col Hcol. apply not_elem_of_cons in Hcol as [Hne Hcol].
      rewrite Hout by done. by rewrite lookup_insert_ne.
    + intros col Hcol. destruct (decide (col ∈ description)) as [Hd|Hd].
      * by apply Hin.
      * rewrite Hout by done. apply elem_of_cons in Hcol as [->|]; [|done].
        rewrite lookup_insert_eq. eauto.
    + intros [|i] col Hi Hlater; simpl in Hi.
      * injection Hi as ->. rewrite Nat.add_0_r.
        rewrite Hout.
        -- by rewrite lookup_insert_eq.
        -- intros Hcol. apply list_elem_of_lookup in Hcol as [j Hj].
           by apply (Hlater (S j)); [lia|].
      * rewrite (Hlast i col Hi).
        -- f_equal. lia.
        -- intros j Hij. apply (Hlater (S j)). lia.
Qed.

(** X16.  On a row with at least as many values as the cursor has columns,
    [_dict_factory] returns a dict whose keys are the column names, each
    with the value at the position of the column; of two columns with one
    name the later one gives the value.  On a shorter row it raises. *)
Theorem dict_factory_lookup {V} (description : list string) (row : list V) :
  ((length description ≤ length row)%nat →
   ∃ d, Rows._dict_factory description row = Some d
        ∧ (∀ col, is_Some (d !! col) ↔ col ∈ description)
        ∧ (∀ i col, description !! i = Some col →
             (∀ j, (i < j)%nat → description !! j ≠ Some col) →
             d !! col = row !! i))
  ∧ ((length row < length description)%nat →
     Rows._dict_factory description row = None).
Proof.
  split.
  - intros Hlen.
    destruct (dict_factory_loop_spec description row 0 ∅)
      as (d & Hd & Hout & Hin & Hlast); [simpl; lia|].
    exists d. split; [done|]. split; [|done].
    intros col. split; [|apply Hin].
    intros Hsome. destruct (decide (col ∈ description)) as [|Hnot]; [done|].
    rewrite (Hout col Hnot), lookup_empty in Hsome. by destruct Hsome.
  - unfold Rows._dict_factory. generalize (∅ : gmap string V).
    assert (∀ idx (d : gmap string V),
              (idx ≤ length row)%nat →
              (length row < idx + length description)%nat →
              Rows._dict_factory_loop idx description row d = None) as Hshort.
    { induction description as [|c description IH]; intros idx d Hidx Hlen;
        simpl in *; [lia|].
      destruct (row !! idx) as [v|] eqn:Hv; [|done].
      apply lookup_lt_Some in Hv. apply IH; lia. }
    intros d Hlen. apply Hshort; simpl; lia.
Qed.

Example dict_factory_same_name :
  Rows._dict_factory ["id"; "title"; "id"] [1; 2; 3]
  = Some {["id" := 3; "title" := 2]}.
Proof. vm_compute. reflexivity. Qed.

(** ** Listings after a change *)

(** X18.  After [delete_note] has returned, no list that [list_notes]
    returns has a record with the deleted id. *)
Theorem deleted_note_is_not_listed (db : database) (now later : timestamp)
    (note_id limit offset : Z) (response : Response) (l : list NoteOut.t) :
  returned (delete_note note_id now db) = Ok response →
  returned (list_notes limit offset later (stored (delete_note note_id now db)))
    = Ok l →
  note_id ∉ NoteOut.id <$> l.
Proof.
  intros Hdel Hl Hin.
  destruct (decide (note_id ≤ 0)).
  { by rewrite delete_note_nonpositive in Hdel. }
  destruct (decide (INT64_MAX < note_id)).
  { by rewrite delete_note_overflow in Hdel. }
  rewrite delete_note_in_range in Hdel, Hl by lia. unfold delete in *.
  destruct (notes db !! note_id) as [old|]; [|done].
  cbn [stored] in Hl.
  destruct (decide (limit < 1 ∨ limit > 500)).
  { by rewrite list_notes_bad_limit in Hl. }
  destruct (decide (offset < 0)).
  { by rewrite list_notes_bad_offset in Hl by lia. }
  destruct (decide (INT64_MAX < offset)).
  { by rewrite list_notes_overflow in Hl by lia. }
  rewrite list_notes_in_range in Hl by lia. cbn [returned] in Hl.
  case_decide; [|done]. injection Hl as <-.
  apply list_elem_of_fmap in Hin as (note & -> & Hnote).
  apply list_elem_of_fmap in Hnote as (r & -> & Hr).
  apply select_page_elem in Hr as (c & Hc & _).
  cbn [notes note_of_row NoteOut.id] in Hc.
  by rewrite lookup_delete_eq in Hc.
Qed.

Lemma deleted_note_is_not_listed_witness :
  returned (delete_note 2 9 two_notes) = Ok {| status_code := 204 |}
  ∧ returned (list_notes 5 0 9 (stored (delete_note 2 9 two_notes)))
    = Ok [NoteOut.Make 1 [67%N] [68%N] 5 5]
  ∧ 2 ∉ NoteOut.id <$> [NoteOut.Make 1 [67%N] [68%N] 5 5].
Proof.
  split; [vm_compute; reflexivity|]. split; [vm_compute; reflexivity|].
  apply (deleted_note_is_not_listed two_notes 9 9 2 5 0
           {| status_code := 204 |}).
  - vm_compute. reflexivity.
  - vm_compute. reflexivity.
Defined.

(** X19.  A list that [list_notes] returns from offset 0 with a limit that
    is not below the number of notes has the record of every note of the
    store. *)
Theorem list_notes_complete (db : database) (now : timestamp) (limit : Z)
    (l : list NoteOut.t) (note_id : Z) (c : cells) :
  Z.of_nat (size (notes db)) ≤ limit →
  returned (list_notes limit 0 now db) = Ok l →
  notes db !! note_id = Some c →
  note_of note_id c ∈ l.
Proof.
  intros Hsize Hl Hc.
  destruct (decide (limit < 1 ∨ limit > 500)).
  { by rewrite list_notes_bad_limit in Hl. }
  rewrite list_notes_in_range in Hl by int64. cbn [returned] in Hl.
  case_decide; [|done]. injection Hl as <-.
  apply list_elem_of_fmap. exists (row_of note_id c). split; [done|].
  unfold select_page, sql_limit, sql_offset.
  rewrite decide_False by lia. change (Z.to_nat 0) with 0%nat. rewrite drop_0.
  rewrite take_ge.
  - rewrite merge_sort_Permutation. apply list_elem_of_fmap.
    exists (note_id, c). split; [done|]. by apply elem_of_map_to_list.
  - rewrite merge_sort_Permutation, length_fmap, length_map_to_list. lia.
Qed.

Lemma list_notes_complete_witness :
  returned (list_notes 2 0 9 two_notes)
  = Ok [NoteOut.Make 2 [65%N] [66%N] 5 5; NoteOut.Make 1 [67%N] [68%N] 5 5]
  ∧ note_of 1 (Cells [67%N] [68%N] 5 5)
    ∈ [NoteOut.Make 2 [65%N] [66%N] 5 5; NoteOut.Make 1 [67%N] [68%N] 5 5].
Proof.
  split; [vm_compute; reflexivity|].
  apply (list_notes_complete two_notes 9 2).
  - vm_compute. discriminate.
  - vm_compute. reflexivity.
  - vm_compute. reflexivity.
Defined.

(** X20.  When every other note was last updated before the time of a
    successful [update_note], the note it returns is the first record of
    every list that [list_notes] then returns from offset 0. *)
Theorem updated_note_is_listed_first (db : database) (now later : timestamp)
    (note_id : Z) (payload : NoteUpdate.t) (note : NoteOut.t) (limit : Z)
    (l : list NoteOut.t) :
  (∀ k c, k ≠ note_id → notes db !! k = Some c → updated_at c < now) →
  returned (update_note note_id payload now db) = Ok note →
  returned (list_notes limit 0 later
              (stored (update_note note_id payload now db))) = Ok l →
  head l = Some note.
Proof.
  intros Hothers Hnote Hl.
  destruct (decide (limit < 1 ∨ limit > 500)).
  { by rewrite list_notes_bad_limit in Hl. }
  rewrite list_notes_in_range in Hl by int64. cbn [returned] in Hl.
  case_decide; [|done]. injection Hl as <-.
  destruct (decide (note_id ≤ 0)).
  { by rewrite update_note_nonpositive in Hnote. }
  destruct (decide (supplies_a_field payload)) as [Hp|Hp];
    [|by rewrite update_note_no_field in Hnote by (done || lia)].
  destruct (decide (INT64_MAX < note_id)).
  { by rewrite update_note_overflow in Hnote. }
  destruct (notes db !! note_id) as [old|] eqn:Hold;
    [|by rewrite update_note_missing in Hnote by (done || lia)].
  rewrite (update_note_found db now note_id payload old) in Hnote |- *
    by (done || lia).
  cbn [returned stored] in *.
  apply model_validate_row_inv in Hnote as (-> & _ & _).
  set (c := updated_cells payload now old) in *.
  match goal with
  | |- head (_ <$> select_page limit 0 ?d) = _ =>
      assert (head (select_page limit 0 d) = Some (row_of note_id c)) as Hhead
  end.
  { apply select_page_head; [lia| |].
    - exists c. cbn [notes row_of r_id]. by rewrite lookup_insert_eq.
    - intros j d. cbn [notes]. rewrite lookup_insert.
      case_decide as Hj.
      + intros [= <-]. subst j. unfold order_by, datetime. simpl. lia.
      + intros Hd. pose proof (Hothers j d (not_eq_sym Hj) Hd).
        unfold order_by, datetime. simpl. lia. }
  assert (∀ rows : list row,
            head (note_of_row <$> rows) = note_of_row <$> head rows) as ->
    by (by intros [|h t]).
  by rewrite Hhead.
Qed.

Lemma updated_note_is_listed_first_witness :
  let updated := update_note 1 (NoteUpdate.Make (Some [88%N]) None) 8 two_notes in
  returned updated = Ok (NoteOut.Make 1 [88%N] [68%N] 5 8)
  ∧ returned (list_notes 2 0 9 (stored updated))
    = Ok [NoteOut.Make 1 [88%N] [68%N] 5 8; NoteOut.Make 2 [65%N] [66%N] 5 5]
  ∧ head [NoteOut.Make 1 [88%N] [68%N] 5 8; NoteOut.Make 2 [65%N] [66%N] 5 5]
    = Some (NoteOut.Make 1 [88%N] [68%N] 5 8).
Proof.
  intros updated.
  split; [vm_compute; reflexivity|]. split; [vm_compute; reflexivity|].
  apply (updated_note_is_listed_first two_notes 8 9 1
           (NoteUpdate.Make (Some [88%N]) None) _ 2).
  - intros k c Hk Hc.
    destruct (store_inv_note 5 two_notes k c two_notes_inv Hc) as (_ & _ & _ & ?).
    lia.
  - vm_compute. reflexivity.
  - vm_compute. reflexivity.
Defined.
